(** * Filter validation and row filtering of the trip-report dashboard

    A shallow embedding of [src/utils/filterValidation.js], of the
    [shouldIncludeRow] gate and of the option table of
    [src/constants/filterConstants.js], with the properties the
    specification states about them.

    The JavaScript is modelled at the level of values: the operators [&&] and
    [||] return one of their operands, a method call on a value that has no
    such method throws, and a property that an object does not hold reads as
    [undefined]. *)

From Stdlib Require Import ZArith Bool Ascii String List Lia.
From stdpp Require Import base option gmap strings.
From stdpp Require Import pretty.

Local Open Scope string_scope.
Local Open Scope Z_scope.

(** ** Values and completions *)

(** The JavaScript values the filter code handles. *)
Inductive val : Type :=
  | VUndefined
  | VNull
  | VBool (b : bool)
  | VStr (s : string).

#[global] Instance val_eq_dec : EqDecision val.
Proof. solve_decision. Defined.

(** The one kind of exception the code can raise: a [TypeError] from reading
    a property of [undefined] or [null], or from calling what is not a
    function. *)
Inductive exception : Type :=
  | TypeError.

(** A completion: the code either returns normally or throws. *)
Inductive completion (A : Type) : Type :=
  | Normal (a : A)
  | Throw (e : exception).

Arguments Normal {A} a.
Arguments Throw {A} e.

#[global] Instance completion_ret : MRet completion := fun A a => Normal a.
#[global] Instance completion_bind : MBind completion := fun A B f m =>
  match m with
  | Normal a => f a
  | Throw e => Throw e
  end.

(** [try { body } catch (error) { handler }] *)
Definition try_catch {A} (body : completion A) (handler : exception → completion A)
    : completion A :=
  match body with
  | Normal a => Normal a
  | Throw e => handler e
  end.

(** A JavaScript object: a finite map from property names to values. *)
Abbreviation object := (gmap string val).

(** [o.k], which is [undefined] when [o] has no property [k]. *)
Definition get (o : object) (k : string) : val := default VUndefined (o !! k).

(** A parameter default ([k = d] in a destructuring pattern): the default is
    taken when the value is [undefined], and only then. *)
Definition param_default (v d : val) : val :=
  match v with
  | VUndefined => d
  | _ => v
  end.

(** ** Operators *)

(** [ToBoolean]: the empty string, [undefined], [null] and [false] are
    falsy. *)
Definition ToBoolean (v : val) : bool :=
  match v with
  | VUndefined | VNull => false
  | VBool b => b
  | VStr s => negb (String.eqb s "")
  end.

(** [!v] *)
Definition js_not (v : val) : val := VBool (negb (ToBoolean v)).

(** [a && b]: [a] when [a] is falsy, otherwise whatever [b] evaluates to.
    The right operand is a computation, since it is evaluated only when [a]
    is truthy. *)
Definition js_and (a : val) (b : completion val) : completion val :=
  if ToBoolean a then b else Normal a.

(** [a || b]: [a] when [a] is truthy, otherwise whatever [b] evaluates to. *)
Definition js_or (a : val) (b : completion val) : completion val :=
  if ToBoolean a then Normal a else b.

(** [a === b] on the values above: equal types and equal contents. *)
Definition strict_eq (a b : val) : bool := bool_decide (a = b).

(** ** Strings *)

(** A character stands for the code unit of the same number.  Among the code
    units below 256 the white space and line terminators of ECMAScript are
    TAB, LF, VT, FF, CR, SP and NBSP. *)
Definition isWhiteSpace (c : ascii) : bool :=
  let n := N_of_ascii c in
  ((9 <=? n) && (n <=? 13) || (n =? 32) || (n =? 160))%N.

Fixpoint trimStart (s : string) : string :=
  match s with
  | EmptyString => EmptyString
  | String c s' => if isWhiteSpace c then trimStart s' else s
  end.

Fixpoint trimEnd (s : string) : string :=
  match s with
  | EmptyString => EmptyString
  | String c s' =>
      let t := trimEnd s' in
      if isWhiteSpace c && String.eqb t "" then EmptyString else String c t
  end.

(** [String.prototype.trim] *)
Definition trim (s : string) : string := trimEnd (trimStart s).

(** [v.trim()]: a string is trimmed; [undefined] and [null] have no
    properties and a boolean has no [trim], so the call throws. *)
Definition call_trim (v : val) : completion val :=
  match v with
  | VStr s => Normal (VStr (trim s))
  | _ => Throw TypeError
  end.

(** A string is blank when every character of it is white space. *)
Fixpoint blank (s : string) : bool :=
  match s with
  | EmptyString => true
  | String c s' => isWhiteSpace c && blank s'
  end.

(** A filter field is set when it holds a non-blank string; [undefined],
    [null], the empty string and a string of white space leave it unset. *)
Definition isSet (v : val) : bool :=
  match v with
  | VStr s => negb (blank s)
  | _ => false
  end.

(** ** filterConstants.js *)

Record option_entry : Type := { value : string; label : string }.

(** Trip count filter options *)
Definition TRIP_COUNT_OPTIONS : list option_entry :=
  [ {| value := "all"; label := "All (<3 trips)" |};
    {| value := "0"; label := "0 Trips Only" |};
    {| value := "1"; label := "1 Trip Only" |};
    {| value := "2"; label := "2 Trips Only" |} ].

(** ** Dates *)

(** A time value, as [Date.prototype.getTime] returns it: milliseconds since
    the epoch, or [NaN] for an invalid date. *)
Inductive number : Type :=
  | NaN
  | Num (n : Z).

Definition isNaN (x : number) : bool :=
  match x with
  | NaN => true
  | Num _ => false
  end.

(** [x <= y] on numbers; a comparison with [NaN] is false. *)
Definition num_le (x y : number) : bool :=
  match x, y with
  | Num a, Num b => a <=? b
  | _, _ => false
  end.

(** [x === y] on numbers; [NaN] equals nothing. *)
Definition num_eq (x y : number) : bool :=
  match x, y with
  | Num a, Num b => a =? b
  | _, _ => false
  end.

(** A [Date] object holds a time value. *)
Record JSDate : Type := mkDate { getTime : number }.

(** [a <= b] on [Date] objects compares their time values. *)
Definition date_le (a b : JSDate) : bool := num_le (getTime a) (getTime b).

(** *** The date-only forms of the ECMAScript date-time string format

    [Date.parse] must accept [YYYY], [YYYY-MM] and [YYYY-MM-DD] and read them
    as UTC midnight; what it does with any other string is left to the host.
    [isoDateParse] is the host that accepts nothing else.  It serves as the
    instance at which the statements below are evaluated; the statements
    themselves hold for every host. *)

Definition msPerDay : Z := 86400000.

Definition DayFromYear (y : Z) : Z :=
  365 * (y - 1970) + (y - 1969) / 4 - (y - 1901) / 100 + (y - 1601) / 400.

Definition InLeapYear (y : Z) : bool :=
  (y mod 4 =? 0) && (negb (y mod 100 =? 0) || (y mod 400 =? 0)).

Definition DaysInYear (y : Z) : Z := if InLeapYear y then 366 else 365.

Definition DaysInMonth (y m : Z) : Z :=
  if m =? 2 then (if InLeapYear y then 29 else 28)
  else if (m =? 4) || (m =? 6) || (m =? 9) || (m =? 11) then 30
  else 31.

(** Days of the year [y] that precede its month [m]. *)
Definition DaysBeforeMonth (y m : Z) : Z :=
  fold_right Z.add 0 (map (DaysInMonth y) (map Z.of_nat (seq 1 (Z.to_nat (m - 1))))).

Definition MakeDay (y m d : Z) : Z := DayFromYear y + DaysBeforeMonth y m + (d - 1).

Definition digit (c : ascii) : option Z :=
  let n := Z.of_N (N_of_ascii c) in
  if (48 <=? n) && (n <=? 57) then Some (n - 48) else None.

(** The decimal number a list of digits spells. *)
Fixpoint decimal (acc : Z) (cs : list ascii) : option Z :=
  match cs with
  | [] => Some acc
  | c :: cs' =>
      match digit c with
      | Some d => decimal (10 * acc + d) cs'
      | None => None
      end
  end.

(** A year, a month and a day that make a date of the calendar. *)
Definition validCivil (y m d : Z) : bool :=
  (1 <=? m) && (m <=? 12) && (1 <=? d) && (d <=? DaysInMonth y m).

Definition civil (y m d : option Z) : number :=
  match y, m, d with
  | Some y, Some m, Some d =>
      if validCivil y m d then Num (MakeDay y m d * msPerDay) else NaN
  | _, _, _ => NaN
  end.

(** The order of the calendar: by year, then by month, then by day. *)
Definition civil_lt (y m d y' m' d' : Z) : Prop :=
  y < y' ∨ (y = y' ∧ (m < m' ∨ (m = m' ∧ d < d'))).

Definition civil_le (y m d y' m' d' : Z) : Prop :=
  civil_lt y m d y' m' d' ∨ (y = y' ∧ m = m' ∧ d = d').

Definition isoDateParse (s : string) : number :=
  match list_ascii_of_string s with
  | [y1; y2; y3; y4] =>
      civil (decimal 0 [y1; y2; y3; y4]) (Some 1) (Some 1)
  | [y1; y2; y3; y4; "-"%char; m1; m2] =>
      civil (decimal 0 [y1; y2; y3; y4]) (decimal 0 [m1; m2]) (Some 1)
  | [y1; y2; y3; y4; "-"%char; m1; m2; "-"%char; d1; d2] =>
      civil (decimal 0 [y1; y2; y3; y4]) (decimal 0 [m1; m2]) (decimal 0 [d1; d2])
  | _ => NaN
  end.

Section Filters.

(** The host's [Date.parse]: a string to a time value, [NaN] when the string
    is not a date. *)
Variable Date_parse : string → number.

(** [new Date(v)].  A string is parsed; any other value is converted to a
    number and taken as the time value. *)
Definition new_Date (v : val) : JSDate :=
  match v with
  | VStr s => mkDate (Date_parse s)
  | VUndefined => mkDate NaN
  | VNull => mkDate (Num 0)
  | VBool b => mkDate (Num (if b then 1 else 0))
  end.

(** ** filterValidation.js *)

Definition validateDateRange (startDate endDate : val) : completion val :=
  (* Allow empty dates - user might be in the process of selecting *)
  c ← js_or (js_not startDate) (Normal (js_not endDate));
  if ToBoolean c then Normal (VBool true)
  else
    try_catch
      (let start := new_Date startDate in
       let end_ := new_Date endDate in
       (* Check if dates are valid *)
       if isNaN (getTime start) || isNaN (getTime end_) then Normal (VBool false)
       else
         (* Start date should be before or equal to end date *)
         Normal (VBool (date_le start end_)))
      (λ error, (* console.warn *) Normal (VBool false)).

(** [selectedDate && selectedDate.trim() !== ''], the test that a field is
    filled in. *)
Definition filled (v : val) : completion val :=
  js_and v (t ← call_trim v; Normal (VBool (negb (strict_eq t (VStr ""))))).

Definition hasAnyActiveFilters (filterValues : object) : completion val :=
  let selectedDate := get filterValues "selectedDate" in
  let startDate := get filterValues "startDate" in
  let endDate := get filterValues "endDate" in
  let selectedZone := get filterValues "selectedZone" in
  let tripCountFilter := get filterValues "tripCountFilter" in
  let showTripCountFilter :=
    param_default (get filterValues "showTripCountFilter") (VBool false) in
  (* Check if specific date is selected *)
  c1 ← filled selectedDate;
  if ToBoolean c1 then Normal (VBool true)
  else
    (* Check if date range is selected *)
    s ← filled startDate;
    c2 ← js_or s (filled endDate);
    if ToBoolean c2 then Normal (VBool true)
    else
      (* Check if zone is selected *)
      c3 ← filled selectedZone;
      if ToBoolean c3 then Normal (VBool true)
      else
        (* Check if trip count filter is active and not default *)
        a ← js_and showTripCountFilter (Normal tripCountFilter);
        c4 ← js_and a (Normal (VBool (negb (strict_eq tripCountFilter (VStr "all")))));
        if ToBoolean c4 then Normal (VBool true)
        else Normal (VBool false).

Definition hasDateRangeFilter (startDate endDate : val) : completion val :=
  s ← filled startDate;
  js_or s (filled endDate).

Definition hasSpecificDateFilter (selectedDate : val) : completion val :=
  filled selectedDate.

Definition hasBothDateFilters (selectedDate startDate endDate : val)
    : completion val :=
  a ← hasSpecificDateFilter selectedDate;
  js_and a (hasDateRangeFilter startDate endDate).

Definition isValidDate (dateString : val) : completion val :=
  c ← js_or (js_not dateString)
        (t ← call_trim dateString; Normal (VBool (strict_eq t (VStr ""))));
  if ToBoolean c then Normal (VBool true) (* Empty dates are considered valid *)
  else
    try_catch
      (let date := new_Date dateString in
       Normal (js_not (VBool (isNaN (getTime date)))))
      (λ error, Normal (VBool false)).

Definition getDateRangeErrorMessage (startDate endDate : val) : completion val :=
  c ← js_or (js_not startDate) (Normal (js_not endDate));
  if ToBoolean c then Normal VNull (* No error for empty dates *)
  else
    v1 ← isValidDate startDate;
    if ToBoolean (js_not v1) then Normal (VStr "Start date is invalid")
    else
      v2 ← isValidDate endDate;
      if ToBoolean (js_not v2) then Normal (VStr "End date is invalid")
      else
        v3 ← validateDateRange startDate endDate;
        if ToBoolean (js_not v3)
        then Normal (VStr "Start date must be before or equal to end date")
        else Normal VNull.

Definition getClearedFilterValues : object :=
  {[ "selectedDate" := VStr "";
     "startDate" := VStr "";
     "endDate" := VStr "";
     "selectedZone" := VStr "";
     "tripCountFilter" := VStr "all" ]}.

(** ** dateFilterLogic.js *)

(** Modelled from the spec: the trip bucket of a row, [tripsBucket: 0|1|2|3+]
    of the data model; the code that derives it from a row is not among the
    sources. *)
Inductive TripBucket : Type :=
  | Bucket0
  | Bucket1
  | Bucket2
  | Bucket3plus.

#[global] Instance TripBucket_eq_dec : EqDecision TripBucket.
Proof. solve_decision. Defined.

(** A row: the [Date] and [Zone] properties that [shouldIncludeRow] reads,
    and the trip bucket of the spec's data model. *)
Record Row : Type := { Date : val; Zone : val; tripsBucket : TripBucket }.

(** The calendar date a field holds: dates are compared as parsed dates,
    never as strings, and what does not parse matches nothing. *)
Definition dateOf (v : val) : number :=
  match v with
  | VStr s => Date_parse s
  | _ => NaN
  end.

(** Modelled from the spec: [matchesSpecificDate] of [dateFilterLogic.js],
    which is not among the sources.  Step 2 of section 4.2:
    [specificMatch = (rowDate == specificDate)] when [specificDate] is set,
    else [false]. *)
Definition specificMatch (rowDate specificDate : val) : bool :=
  isSet specificDate && num_eq (dateOf rowDate) (dateOf specificDate).

(** Modelled from the spec: [matchesDateRange] of [dateFilterLogic.js], which
    is not among the sources.  Step 3 of section 4.2: with both bounds set,
    [rangeStart <= rowDate <= rangeEnd], inclusive at both ends; without
    both bounds there is no range to match. *)
Definition rangeMatch (rowDate rangeStart rangeEnd : val) : bool :=
  isSet rangeStart && isSet rangeEnd
  && num_le (dateOf rangeStart) (dateOf rowDate)
  && num_le (dateOf rowDate) (dateOf rangeEnd).

(** Modelled from the spec: the lone-bound policy of step 3 of section 4.2
    and of section 9.  One bound set alone does not constrain; a field that
    puts no constraint is what section 3 calls unset, so a lone bound is
    dropped and the range is left unset. *)
Definition effectiveRange (rangeStart rangeEnd : val) : val * val :=
  if isSet rangeStart && isSet rangeEnd then (rangeStart, rangeEnd)
  else (VUndefined, VUndefined).

(** Modelled from the spec: [applyDateFiltering] of [dateFilterLogic.js],
    which is not among the sources (the README only sketches it).  Steps 1
    to 4 of section 4.2, on the bounds that the lone-bound policy leaves:
    no date filter set gives [true]; otherwise the verdict is
    [specificMatch OR rangeMatch]. *)
Definition applyDateFiltering (rowDate specificDate rangeStart rangeEnd : val)
    : bool :=
  let '(rangeStart, rangeEnd) := effectiveRange rangeStart rangeEnd in
  if negb (isSet specificDate) && negb (isSet rangeStart || isSet rangeEnd)
  then true
  else specificMatch rowDate specificDate || rangeMatch rowDate rangeStart rangeEnd.

(** Modelled from the spec: [applyZoneFiltering] of [dateFilterLogic.js],
    which is not among the sources.  [true] if [selectedZone] is unset or
    blank, else exact, case-sensitive equality with [rowZone]. *)
Definition applyZoneFiltering (rowZone selectedZone : val) : bool :=
  if isSet selectedZone then strict_eq rowZone selectedZone else true.

(** The bucket a selector names: the numeric value of ["0"], ["1"] and
    ["2"]; no selector names the bucket of three trips and more. *)
Definition selectorBucket (s : string) : option TripBucket :=
  if String.eqb s "0" then Some Bucket0
  else if String.eqb s "1" then Some Bucket1
  else if String.eqb s "2" then Some Bucket2
  else None.

(** Modelled from the spec: [applyTripCountFiltering] of
    [dateFilterLogic.js], which is not among the sources.  [true] if the
    selector is [ALL] or unset; else [true] iff the row's trip bucket equals
    the numeric selector value exactly. *)
Definition applyTripCountFiltering (row : Row) (selector : val) : bool :=
  match selector with
  | VStr s =>
      if blank s || String.eqb s "all" then true
      else bool_decide (selectorBucket s = Some (tripsBucket row))
  | _ => true
  end.

(** The filter gate, as the refactoring summary quotes it from
    [dateFilterLogic.js]. *)
Definition shouldIncludeRow (row : Row) (filters : object) (sheetName : val)
    : completion val :=
  let dateMatch :=
    applyDateFiltering (Date row) (get filters "selectedDate")
      (get filters "startDate") (get filters "endDate") in
  let zoneMatch := applyZoneFiltering (Zone row) (get filters "selectedZone") in
  let tripCountMatch := applyTripCountFiltering row (get filters "tripCountFilter") in
  a ← js_and (VBool dateMatch) (Normal (VBool zoneMatch));
  js_and a (Normal (VBool tripCountMatch)).

End Filters.

(** ** Notions the statements use *)

(** A field of a filter state holds text when it is a string, [undefined] or
    [null]. *)
Definition textual (v : val) : bool :=
  match v with
  | VBool _ => false
  | _ => true
  end.

(** The trip-count category is enabled when the caller's
    [showTripCountFilter], [false] by default, is truthy. *)
Definition tripCountEnabled (filterValues : object) : bool :=
  ToBoolean (param_default (get filterValues "showTripCountFilter") (VBool false)).

(** The trip-count selector is chosen when it is truthy and differs from
    ['all']. *)
Definition selectorChosen (tripCountFilter : val) : bool :=
  ToBoolean tripCountFilter && negb (strict_eq tripCountFilter (VStr "all")).

(** * Sample data

    Rows and filter states at which the statements below are evaluated, with
    [isoDateParse] for the host's parser. *)

Definition sampleRow (date zone : string) (bucket : TripBucket) : Row :=
  {| Date := VStr date; Zone := VStr zone; tripsBucket := bucket |}.

(** A filter state as the filter panel holds it. *)
Definition filterState (selectedDate startDate endDate selectedZone tripCountFilter : string)
    (showTripCountFilter : bool) : object :=
  {[ "selectedDate" := VStr selectedDate;
     "startDate" := VStr startDate;
     "endDate" := VStr endDate;
     "selectedZone" := VStr selectedZone;
     "tripCountFilter" := VStr tripCountFilter;
     "showTripCountFilter" := VBool showTripCountFilter ]}.

(** A specific date together with a range: the OR case of the spec. *)
Definition dateOrRange : object :=
  filterState "2024-01-01" "2024-03-01" "2024-03-31" "" "all" true.

(** Nothing set but a selector left at ['1'] on a view without the
    trip-count category. *)
Definition staleSelector : object := filterState "" "" "" "" "1" false.

(** * The rest of the filter code

    What the filter panel does around the functions above: the remaining
    exports of [filterValidation.js], two more tables of
    [filterConstants.js], and the decisions the components take.  Of a
    component only the decisions are kept: which element it renders, with
    which text; class names and icons are left out. *)

(** ** filterConstants.js, continued *)

Record error_messages : Type :=
  { INVALID_DATE_RANGE : string; REQUIRED_FIELD : string; INVALID_DATE_FORMAT : string }.

(** Error messages for validation *)
Definition ERROR_MESSAGES : error_messages :=
  {| INVALID_DATE_RANGE := "Start date must be before or equal to end date";
     REQUIRED_FIELD := "This field is required";
     INVALID_DATE_FORMAT := "Please enter a valid date" |}.

(** ** filterValidation.js, continued *)

Definition getClearedDateFilters : object :=
  {[ "selectedDate" := VStr "";
     "startDate" := VStr "";
     "endDate" := VStr "" ]}.

Section Display.

Variable Date_parse : string → number.

(** The host's [Date.prototype.toLocaleDateString], as a function of the
    time value of the date. *)
Variable toLocaleDateString : number → string.

Definition formatDateForDisplay (dateString : val) : completion val :=
  c ← js_or (js_not dateString)
        (v ← isValidDate Date_parse dateString; Normal (js_not v));
  if ToBoolean c then Normal (VStr "...")
  else
    try_catch
      (Normal (VStr (toLocaleDateString (getTime (new_Date Date_parse dateString)))))
      (λ error, Normal (VStr "...")).

(** ** The filter state and its setters

    The parent of [Filters] holds the filter state and hands down one setter
    for each field; a setter stores its argument in the field it is named
    after. *)

Definition setSelectedDate (v : val) (state : object) : object :=
  <["selectedDate" := v]> state.
Definition setStartDate (v : val) (state : object) : object :=
  <["startDate" := v]> state.
Definition setEndDate (v : val) (state : object) : object :=
  <["endDate" := v]> state.
Definition setSelectedZone (v : val) (state : object) : object :=
  <["selectedZone" := v]> state.
Definition setTripCountFilter (v : val) (state : object) : object :=
  <["tripCountFilter" := v]> state.

(** The object [{ selectedDate, startDate, endDate, selectedZone,
    tripCountFilter, showTripCountFilter }] that [Filters] and
    [ActiveFiltersDisplay] hand to [hasAnyActiveFilters]. *)
Definition filterValuesOf (state : object) (showTripCountFilter : val) : object :=
  {[ "selectedDate" := get state "selectedDate";
     "startDate" := get state "startDate";
     "endDate" := get state "endDate";
     "selectedZone" := get state "selectedZone";
     "tripCountFilter" := get state "tripCountFilter";
     "showTripCountFilter" := showTripCountFilter ]}.

(** ** Filters.jsx *)

(** [hasActiveFilters] of [Filters]; the prop [showTripCountFilter] is
    [false] by default. *)
Definition Filters_hasActiveFilters (state : object) (showTripCountFilter : val)
    : completion val :=
  let showTripCountFilter := param_default showTripCountFilter (VBool false) in
  hasAnyActiveFilters (filterValuesOf state showTripCountFilter).

(** [handleClearAllFilters] of [Filters].  The prop [setTripCountFilter] may
    be missing, which is [None] here. *)
Definition handleClearAllFilters (showTripCountFilter : val)
    (setTripCountFilter : option (val → object → object)) (state : object) : object :=
  let showTripCountFilter := param_default showTripCountFilter (VBool false) in
  let state := setSelectedDate (VStr "") state in
  let state := setStartDate (VStr "") state in
  let state := setEndDate (VStr "") state in
  let state := setSelectedZone (VStr "") state in
  (* showTripCountFilter && setTripCountFilter *)
  match (if ToBoolean showTripCountFilter then setTripCountFilter else None) with
  | Some setTripCountFilter => setTripCountFilter (VStr "all") state
  | None => state
  end.

(** ** DateFilters.jsx *)

(** [isDateRangeValid] of [DateFilters]; the error box is shown when it is
    falsy. *)
Definition isDateRangeValid (state : object) : completion val :=
  validateDateRange Date_parse (get state "startDate") (get state "endDate").

Definition handleClearSpecificDate (state : object) : object :=
  setSelectedDate (VStr "") state.

Definition handleClearDateRange (state : object) : object :=
  let state := setStartDate (VStr "") state in
  setEndDate (VStr "") state.

(** ** ActiveFiltersDisplay.jsx *)

(** A filter tag: its kind and the text it shows. *)
Inductive tag : Type :=
  | SpecificDateTag (text : string)
  | DateRangeTag (text : string)
  | ZoneTag (text : string)
  | OrLogicTag.

#[global] Instance tag_eq_dec : EqDecision tag.
Proof. solve_decision. Defined.

(** The text of a child [{v}]: a string as it is; [undefined], [null] and
    booleans render nothing. *)
Definition text_of (v : val) : string :=
  match v with
  | VStr s => s
  | _ => ""
  end.

Definition renderSpecificDateTag (selectedDate : val) : completion (option tag) :=
  h ← hasSpecificDateFilter selectedDate;
  if ToBoolean (js_not h) then Normal None
  else
    d ← formatDateForDisplay selectedDate;
    Normal (Some (SpecificDateTag (String.append "Specific: " (text_of d)))).

Definition renderDateRangeTag (startDate endDate : val) : completion (option tag) :=
  h ← hasDateRangeFilter startDate endDate;
  if ToBoolean (js_not h) then Normal None
  else
    formattedStartDate ← formatDateForDisplay startDate;
    formattedEndDate ← formatDateForDisplay endDate;
    Normal (Some (DateRangeTag
      (String.append "Range: "
         (String.append (text_of formattedStartDate)
            (String.append " - " (text_of formattedEndDate)))))).

Definition renderZoneTag (selectedZone : val) : completion (option tag) :=
  if ToBoolean (js_not selectedZone) then Normal None
  else Normal (Some (ZoneTag (String.append "Zone: " (text_of selectedZone)))).

Definition renderOrLogicTag (selectedDate startDate endDate : val)
    : completion (option tag) :=
  h ← hasBothDateFilters selectedDate startDate endDate;
  if ToBoolean (js_not h) then Normal None
  else Normal (Some OrLogicTag).

(** [ActiveFiltersDisplay]: [None] when the component renders nothing,
    otherwise the tags of the panel, in the order they are shown. *)
Definition ActiveFiltersDisplay (props : object) : completion (option (list tag)) :=
  let selectedDate := get props "selectedDate" in
  let startDate := get props "startDate" in
  let endDate := get props "endDate" in
  let selectedZone := get props "selectedZone" in
  let showTripCountFilter :=
    param_default (get props "showTripCountFilter") (VBool false) in
  (* Check if any filters are active *)
  hasActiveFilters ← hasAnyActiveFilters (filterValuesOf props showTripCountFilter);
  (* Don't render if no active filters *)
  if ToBoolean (js_not hasActiveFilters) then Normal None
  else
    t1 ← renderSpecificDateTag selectedDate;
    t2 ← renderDateRangeTag startDate endDate;
    t3 ← renderZoneTag selectedZone;
    t4 ← renderOrLogicTag selectedDate startDate endDate;
    Normal (Some (omap id [t1; t2; t3; t4])).

(** ** TripCountFilter.jsx *)

(** The [select] element: the value it shows and the options it offers. *)
Record select : Type := { select_value : val; select_options : list option_entry }.

(** [TripCountFilter]: [None] when the component renders nothing. *)
Definition TripCountFilter (props : object) : completion (option select) :=
  let tripCountFilter := get props "tripCountFilter" in
  let showTripCountFilter :=
    param_default (get props "showTripCountFilter") (VBool false) in
  (* Don't render if not enabled *)
  if ToBoolean (js_not showTripCountFilter) then Normal None
  else
    v ← js_or tripCountFilter (Normal (VStr "all"));
    Normal (Some {| select_value := v; select_options := TRIP_COUNT_OPTIONS |}).

End Display.

(** A host rendering of dates for the evaluations: the day number. *)
Definition dayNumberString (x : number) : string :=
  match x with
  | NaN => "Invalid Date"
  | Num t => String.append "day " (pretty (t / msPerDay))
  end.

(** A filter state whose zone is not text: [trim] would throw on it. *)
Definition brokenZone : object :=
  <["selectedZone" := VBool true]> (filterState "2024-01-01" "" "" "" "all" false).

(** Only the trip-count selector is chosen, under an enabled category. *)
Definition onlyTripCount : object := filterState "" "" "" "" "1" true.

(** * Properties *)

(** ** Strings and operators *)

Lemma strict_eq_str (a b : string) : strict_eq (VStr a) (VStr b) = String.eqb a b.
Proof.
  unfold strict_eq. destruct (String.eqb_spec a b) as [->|Hne].
  - by rewrite bool_decide_eq_true_2.
  - rewrite bool_decide_eq_false_2; [done | congruence].
Qed.

Lemma eqb_empty (s : string) : String.eqb s "" = true ↔ s = "".
Proof. apply String.eqb_eq. Qed.

Lemma trimStart_blank (s : string) : String.eqb (trimStart s) "" = blank s.
Proof.
  induction s as [|c s IH]; [done|].
  simpl. destruct (isWhiteSpace c); done.
Qed.

(** What [trimStart] leaves does not begin with white space. *)
Lemma trimStart_head (s : string) :
  trimStart s = "" ∨ ∃ c t, trimStart s = String c t ∧ isWhiteSpace c = false.
Proof.
  induction s as [|c s IH]; [by left|].
  simpl. destruct (isWhiteSpace c) eqn:Hc; [done|].
  right. by exists c, s.
Qed.

Lemma trimEnd_head (c : ascii) (t : string) :
  isWhiteSpace c = false → String.eqb (trimEnd (String c t)) "" = false.
Proof. intros Hc. simpl. by rewrite Hc. Qed.

(** [s.trim() === ''] holds exactly of the blank strings. *)
Lemma trim_blank (s : string) : String.eqb (trim s) "" = blank s.
Proof.
  unfold trim. rewrite <- trimStart_blank.
  destruct (trimStart_head s) as [->|(c & t & -> & Hc)]; [done|].
  by rewrite trimEnd_head.
Qed.

(** [trim] removes white space at the two ends and nothing else. *)
Lemma trimStart_split (s : string) :
  ∃ l, s = String.append l (trimStart s) ∧ blank l = true.
Proof.
  induction s as [|c s (l & IH & Hl)]; [by exists ""|].
  simpl. destruct (isWhiteSpace c) eqn:Hc.
  - exists (String c l). simpl. rewrite Hc, Hl. split; [|done].
    exact (f_equal (String c) IH).
  - by exists "".
Qed.

Lemma trimEnd_split (s : string) :
  ∃ r, s = String.append (trimEnd s) r ∧ blank r = true.
Proof.
  induction s as [|c s (r & IH & Hr)]; [by exists ""|].
  simpl. destruct (isWhiteSpace c && String.eqb (trimEnd s) "") eqn:Hc.
  - apply andb_true_iff in Hc as [Hc He]. apply eqb_empty in He.
    rewrite He in IH. change (s = r) in IH. subst s.
    exists (String c r). split; [done|]. simpl. by rewrite Hc, Hr.
  - exists r. split; [|done]. exact (f_equal (String c) IH).
Qed.

Lemma trim_split (s : string) :
  ∃ l r, s = String.append l (String.append (trim s) r)
         ∧ blank l = true ∧ blank r = true.
Proof.
  destruct (trimStart_split s) as (l & Hs & Hl).
  destruct (trimEnd_split (trimStart s)) as (r & Ht & Hr).
  exists l, r. unfold trim. by rewrite <- Ht, <- Hs.
Qed.

Lemma trimEnd_idempotent (s : string) : trimEnd (trimEnd s) = trimEnd s.
Proof.
  induction s as [|c s IH]; [done|].
  simpl. destruct (isWhiteSpace c && String.eqb (trimEnd s) "") eqn:Hc; [done|].
  simpl. by rewrite IH, Hc.
Qed.

(** What [trim] returns has no white space left at either end: trimming it
    again changes nothing. *)
Lemma trim_idempotent (s : string) : trim (trim s) = trim s.
Proof.
  unfold trim.
  destruct (trimStart_head s) as [->|(c & t & -> & Hc)]; [done|].
  simpl. rewrite Hc. simpl. rewrite Hc. simpl.
  by rewrite trimEnd_idempotent, Hc.
Qed.

(** A blank string has only white space in it, and conversely. *)
Lemma blank_spec (s : string) :
  blank s = true ↔ Forall (λ c, isWhiteSpace c = true) (list_ascii_of_string s).
Proof.
  induction s as [|c s IH]; simpl.
  - split; [constructor | done].
  - rewrite andb_true_iff, IH. split.
    + intros [? ?]. by constructor.
    + by inversion 1.
Qed.

(** The presence test on a string: the empty string comes back as it is,
    any other string gives the boolean that tells whether it is non-blank. *)
Lemma filled_string (s : string) :
  filled (VStr s) =
  Normal (if String.eqb s "" then VStr "" else VBool (negb (blank s))).
Proof.
  destruct s as [|c s]; [done|].
  unfold filled, js_and. simpl ToBoolean. simpl negb.
  change (call_trim (VStr (String c s))) with (Normal (VStr (trim (String c s)))).
  simpl mbind. unfold mbind, completion_bind.
  by rewrite strict_eq_str, trim_blank.
Qed.

(** Whatever the presence test returns on a string is truthy exactly when
    the field is set. *)
Lemma filled_string_truthy (s : string) :
  ∃ v, filled (VStr s) = Normal v ∧ ToBoolean v = isSet (VStr s).
Proof.
  rewrite filled_string. destruct (String.eqb s "") eqn:He.
  - apply eqb_empty in He as ->. by exists (VStr "").
  - by exists (VBool (negb (blank s))).
Qed.

Lemma filled_textual (v : val) :
  textual v = true → ∃ w, filled v = Normal w ∧ ToBoolean w = isSet v.
Proof.
  destruct v as [| |b|s]; intros Ht; try done.
  - by exists VUndefined.
  - by exists VNull.
  - apply filled_string_truthy.
Qed.

(** The presence test returns normally with a falsy value only on a field
    that is not set. *)
Lemma filled_falsy (v w : val) :
  filled v = Normal w → ToBoolean w = false → isSet v = false.
Proof.
  destruct v as [| |b|s]; try done.
  rewrite filled_string. intros [= <-].
  destruct (String.eqb s "") eqn:He.
  - apply eqb_empty in He as ->. done.
  - simpl. done.
Qed.

(** ** The calendar

    The time values of [isoDateParse] are ordered as the dates they stand for
    are ordered in the calendar. *)

Lemma month_cases (m : Z) :
  1 ≤ m ≤ 12 →
  m = 1 ∨ m = 2 ∨ m = 3 ∨ m = 4 ∨ m = 5 ∨ m = 6 ∨ m = 7 ∨ m = 8 ∨ m = 9 ∨ m = 10
  ∨ m = 11 ∨ m = 12.
Proof. lia. Qed.

Lemma validCivil_spec (y m d : Z) :
  validCivil y m d = true ↔ 1 ≤ m ≤ 12 ∧ 1 ≤ d ≤ DaysInMonth y m.
Proof. unfold validCivil. rewrite !andb_true_iff, !Z.leb_le. tauto. Qed.

Lemma DayFromYear_succ (y : Z) : DayFromYear (y + 1) = DayFromYear y + DaysInYear y.
Proof.
  unfold DayFromYear, DaysInYear, InLeapYear.
  destruct (Z.eqb_spec (y mod 4) 0), (Z.eqb_spec (y mod 100) 0),
    (Z.eqb_spec (y mod 400) 0); simpl; Z.div_mod_to_equations; lia.
Qed.

Lemma DaysInYear_bounds (y : Z) : 365 ≤ DaysInYear y ≤ 366.
Proof. unfold DaysInYear. destruct (InLeapYear y); lia. Qed.

(** A later year begins after the whole of an earlier year. *)
Lemma DayFromYear_lt (y y' : Z) :
  y < y' → DayFromYear y + DaysInYear y ≤ DayFromYear y'.
Proof.
  intros Hlt. replace y' with (y + 1 + (y' - y - 1)) by lia.
  assert (Hn : 0 ≤ y' - y - 1) by lia. revert Hn.
  generalize (y' - y - 1). intros n Hn. pattern n.
  apply natlike_ind; [| |done].
  - rewrite Z.add_0_r, DayFromYear_succ. lia.
  - intros k Hk IH. replace (y + 1 + Z.succ k) with (y + 1 + k + 1) by lia.
    rewrite DayFromYear_succ. pose proof (DaysInYear_bounds (y + 1 + k)). lia.
Qed.

Ltac each_month m :=
  destruct (month_cases m) as [->|[->|[->|[->|[->|[->|[->|[->|[->|[->|[->| ->]]]]]]]]]]];
  [lia|..].

Lemma days_within_year (y m d : Z) :
  validCivil y m d = true → 1 ≤ DaysBeforeMonth y m + d ≤ DaysInYear y.
Proof.
  intros [Hm [Hd1 Hd2]]%validCivil_spec. revert Hd2. unfold DaysInYear.
  each_month m; unfold DaysBeforeMonth, DaysInMonth; simpl; destruct (InLeapYear y); lia.
Qed.

(** A later month begins after the whole of an earlier month. *)
Lemma days_before_later_month (y m d m' : Z) :
  validCivil y m d = true → m < m' → m' ≤ 12 →
  DaysBeforeMonth y m + d ≤ DaysBeforeMonth y m'.
Proof.
  intros [Hm [Hd1 Hd2]]%validCivil_spec Hlt Hm'. revert Hd2.
  each_month m;
    (each_month m'; try lia;
     unfold DaysBeforeMonth, DaysInMonth; simpl; destruct (InLeapYear y); lia).
Qed.

Lemma MakeDay_lt (y m d y' m' d' : Z) :
  validCivil y m d = true → validCivil y' m' d' = true →
  civil_lt y m d y' m' d' → MakeDay y m d < MakeDay y' m' d'.
Proof.
  intros Hv Hv' Hlt. unfold MakeDay.
  pose proof (days_within_year _ _ _ Hv). pose proof (days_within_year _ _ _ Hv').
  destruct Hlt as [Hy | [<- [Hm | [<- Hd]]]].
  - pose proof (DayFromYear_lt _ _ Hy). lia.
  - apply validCivil_spec in Hv' as Hb'.
    pose proof (days_before_later_month _ _ _ _ Hv Hm). lia.
  - lia.
Qed.

Lemma civil_total (y m d y' m' d' : Z) :
  civil_le y m d y' m' d' ∨ civil_lt y' m' d' y m d.
Proof. unfold civil_le, civil_lt. lia. Qed.

(** The day number orders two dates as the calendar does. *)
Lemma MakeDay_le (y m d y' m' d' : Z) :
  validCivil y m d = true → validCivil y' m' d' = true →
  (MakeDay y m d ≤ MakeDay y' m' d' ↔ civil_le y m d y' m' d').
Proof.
  intros Hv Hv'. split.
  - intros Hle. destruct (civil_total y m d y' m' d') as [|Hgt]; [done|].
    pose proof (MakeDay_lt _ _ _ _ _ _ Hv' Hv Hgt). lia.
  - intros [Hlt | (<- & <- & <-)]; [|lia].
    pose proof (MakeDay_lt _ _ _ _ _ _ Hv Hv' Hlt). lia.
Qed.

(** Two dates that [isoDateParse] accepts have their time values in the
    order of the calendar. *)
Lemma civil_order (y m d y' m' d' t t' : Z) :
  civil (Some y) (Some m) (Some d) = Num t →
  civil (Some y') (Some m') (Some d') = Num t' →
  (t ≤ t' ↔ civil_le y m d y' m' d').
Proof.
  unfold civil.
  destruct (validCivil y m d) eqn:Hv; [|done].
  destruct (validCivil y' m' d') eqn:Hv'; [|done].
  intros [= <-] [= <-]. rewrite <- MakeDay_le by done. unfold msPerDay. lia.
Qed.

(** ** Validation *)

(** [validateDateRange] on two strings, in closed form. *)
Lemma validateDateRange_strings (Date_parse : string → number) (startDate endDate : string) :
  validateDateRange Date_parse (VStr startDate) (VStr endDate) =
  Normal (VBool (String.eqb startDate "" || String.eqb endDate ""
                 || num_le (Date_parse startDate) (Date_parse endDate))).
Proof.
  unfold validateDateRange, js_or, js_not. simpl.
  destruct (String.eqb startDate ""); simpl; [done|].
  destruct (String.eqb endDate ""); simpl; [done|].
  unfold date_le. simpl.
  destruct (Date_parse startDate), (Date_parse endDate); done.
Qed.

(** [isValidDate] on a string, in closed form. *)
Lemma isValidDate_string (Date_parse : string → number) (dateString : string) :
  isValidDate Date_parse (VStr dateString) =
  Normal (VBool (blank dateString || negb (isNaN (Date_parse dateString)))).
Proof.
  destruct dateString as [|c s]; [done|].
  unfold isValidDate, js_or, js_not. simpl ToBoolean. simpl negb.
  change (call_trim (VStr (String c s))) with (Normal (VStr (trim (String c s)))).
  unfold mbind, completion_bind. rewrite strict_eq_str, trim_blank.
  destruct (blank (String c s)); simpl; done.
Qed.

Lemma getDateRangeErrorMessage_strings (Date_parse : string → number)
    (startDate endDate : string) :
  getDateRangeErrorMessage Date_parse (VStr startDate) (VStr endDate) =
  Normal
    (if String.eqb startDate "" || String.eqb endDate "" then VNull
     else if negb (blank startDate || negb (isNaN (Date_parse startDate)))
       then VStr "Start date is invalid"
     else if negb (blank endDate || negb (isNaN (Date_parse endDate)))
       then VStr "End date is invalid"
     else if negb (num_le (Date_parse startDate) (Date_parse endDate))
       then VStr "Start date must be before or equal to end date"
     else VNull).
Proof.
  unfold getDateRangeErrorMessage.
  rewrite !isValidDate_string, validateDateRange_strings.
  unfold js_or, js_not. simpl.
  destruct (String.eqb startDate "") eqn:Hs; simpl; [done|].
  destruct (String.eqb endDate "") eqn:He; simpl; [done|].
  destruct (blank startDate || negb (isNaN (Date_parse startDate))); simpl; [|done].
  destruct (blank endDate || negb (isNaN (Date_parse endDate))); simpl; [|done].
  destruct (num_le (Date_parse startDate) (Date_parse endDate)); done.
Qed.

Lemma num_le_Num (x y : number) :
  num_le x y = true → isNaN x = false ∧ isNaN y = false.
Proof. destruct x, y; done. Qed.

(** C3. On two strings [validateDateRange] returns [true] when either is
    empty; when both are non-empty it returns [false] if either does not
    parse to a date, and otherwise it returns [true] exactly when the parsed
    start is on or before the parsed end, the two compared as time values and
    not as strings. *)
Theorem validateDateRange_spec (Date_parse : string → number) (startDate endDate : string) :
  (startDate = "" ∨ endDate = "" →
   validateDateRange Date_parse (VStr startDate) (VStr endDate) = Normal (VBool true)) ∧
  (startDate ≠ "" → endDate ≠ "" →
   Date_parse startDate = NaN ∨ Date_parse endDate = NaN →
   validateDateRange Date_parse (VStr startDate) (VStr endDate) = Normal (VBool false)) ∧
  (startDate ≠ "" → endDate ≠ "" →
   ∀ t1 t2, Date_parse startDate = Num t1 → Date_parse endDate = Num t2 →
   ∃ b, validateDateRange Date_parse (VStr startDate) (VStr endDate) = Normal (VBool b)
        ∧ (b = true ↔ t1 ≤ t2)).
Proof.
  rewrite validateDateRange_strings. split; [|split].
  - intros [-> | ->]; [done|]. by rewrite orb_true_r.
  - intros Hs He Hnan.
    apply String.eqb_neq in Hs as ->. apply String.eqb_neq in He as ->. simpl.
    destruct Hnan as [-> | ->]; [done|]. by destruct (Date_parse startDate).
  - intros Hs He t1 t2 -> ->.
    apply String.eqb_neq in Hs as ->. apply String.eqb_neq in He as ->. simpl.
    eexists; split; [done|]. apply Z.leb_le.
Qed.

(** C10. On two strings [getDateRangeErrorMessage] returns [null] exactly
    when [validateDateRange] returns [true], and whenever [validateDateRange]
    returns [false] it returns a message, which is not [null]. *)
Theorem getDateRangeErrorMessage_spec (Date_parse : string → number)
    (startDate endDate : string) :
  (getDateRangeErrorMessage Date_parse (VStr startDate) (VStr endDate) = Normal VNull
   ↔ validateDateRange Date_parse (VStr startDate) (VStr endDate) = Normal (VBool true)) ∧
  (validateDateRange Date_parse (VStr startDate) (VStr endDate) = Normal (VBool false) →
   ∃ message,
     getDateRangeErrorMessage Date_parse (VStr startDate) (VStr endDate)
     = Normal (VStr message) ∧ message ≠ "").
Proof.
  rewrite getDateRangeErrorMessage_strings, validateDateRange_strings.
  destruct (String.eqb startDate "" || String.eqb endDate "") eqn:Hempty; simpl.
  { split; [done|]. intros [=]. }
  destruct (num_le (Date_parse startDate) (Date_parse endDate)) eqn:Hle.
  - apply num_le_Num in Hle as [-> ->]. rewrite !orb_true_r. simpl.
    split; [done|]. intros [=].
  - split.
    + destruct (negb _); [done|]. destruct (negb _); done.
    + intros _.
      destruct (negb _); [by eexists|]. destruct (negb _); by eexists.
Qed.

(** ** Active filters *)

Lemma hasAnyActiveFilters_textual (filterValues : object) :
  textual (get filterValues "selectedDate") = true →
  textual (get filterValues "startDate") = true →
  textual (get filterValues "endDate") = true →
  textual (get filterValues "selectedZone") = true →
  hasAnyActiveFilters filterValues =
  Normal (VBool (isSet (get filterValues "selectedDate")
                 || isSet (get filterValues "startDate")
                 || isSet (get filterValues "endDate")
                 || isSet (get filterValues "selectedZone")
                 || tripCountEnabled filterValues
                    && selectorChosen (get filterValues "tripCountFilter"))).
Proof.
  intros H1 H2 H3 H4. unfold hasAnyActiveFilters, tripCountEnabled, selectorChosen.
  destruct (filled_textual _ H1) as (w1 & -> & <-).
  destruct (filled_textual _ H2) as (w2 & -> & <-).
  destruct (filled_textual _ H3) as (w3 & E3 & <-).
  destruct (filled_textual _ H4) as (w4 & -> & <-).
  unfold mbind, completion_bind, js_or, js_and.
  destruct (ToBoolean w1); simpl; [done|].
  destruct (ToBoolean w2) eqn:T2; simpl; [by rewrite T2|].
  rewrite E3. destruct (ToBoolean w3); simpl; [done|].
  destruct (ToBoolean w4); simpl; [done|].
  generalize (param_default (get filterValues "showTripCountFilter") (VBool false)).
  generalize (get filterValues "tripCountFilter").
  intros tc show.
  destruct (ToBoolean show) eqn:Hshow; simpl.
  - destruct (ToBoolean tc) eqn:Htc; simpl.
    + by destruct (strict_eq _ _).
    + by rewrite Htc.
  - rewrite Hshow. simpl. by rewrite Hshow.
Qed.

Lemma get_insert_ne (o : object) (k k' : string) (v : val) :
  k ≠ k' → get (<[k:=v]> o) k' = get o k'.
Proof. intros Hne. unfold get. by rewrite lookup_insert_ne. Qed.

Lemma get_insert_eq (o : object) (k : string) (v : val) :
  get (<[k:=v]> o) k = v.
Proof. unfold get. by rewrite lookup_insert_eq. Qed.

Lemma selectorChosen_spec (tripCountFilter : val) :
  selectorChosen tripCountFilter = true
  ↔ ToBoolean tripCountFilter = true ∧ tripCountFilter ≠ VStr "all".
Proof.
  unfold selectorChosen, strict_eq.
  rewrite andb_true_iff, negb_true_iff, bool_decide_eq_false. done.
Qed.

(** C6. On a filter state whose date and zone fields hold text,
    [hasAnyActiveFilters] returns a boolean, which is [true] if and only if
    the specific date is non-blank, or the range start or the range end is
    non-blank, or the zone is non-blank, or the trip-count category is
    enabled and the selector is set (truthy) and is not ['all']; with the
    category disabled the selector is ignored, whatever it holds. *)
Theorem hasAnyActiveFilters_spec (filterValues : object) :
  textual (get filterValues "selectedDate") = true →
  textual (get filterValues "startDate") = true →
  textual (get filterValues "endDate") = true →
  textual (get filterValues "selectedZone") = true →
  ∃ b, hasAnyActiveFilters filterValues = Normal (VBool b) ∧
    (b = true ↔
       isSet (get filterValues "selectedDate") = true
       ∨ isSet (get filterValues "startDate") = true
       ∨ isSet (get filterValues "endDate") = true
       ∨ isSet (get filterValues "selectedZone") = true
       ∨ (tripCountEnabled filterValues = true
          ∧ ToBoolean (get filterValues "tripCountFilter") = true
          ∧ get filterValues "tripCountFilter" ≠ VStr "all")) ∧
    (tripCountEnabled filterValues = false →
     ∀ v, hasAnyActiveFilters (<["tripCountFilter" := v]> filterValues)
          = Normal (VBool b)).
Proof.
  intros H1 H2 H3 H4.
  eexists. split; [by apply hasAnyActiveFilters_textual|]. split.
  - rewrite !orb_true_iff, andb_true_iff, selectorChosen_spec. tauto.
  - intros Hoff v.
    rewrite hasAnyActiveFilters_textual by (by rewrite get_insert_ne).
    unfold tripCountEnabled in *.
    rewrite !get_insert_ne by done. by rewrite Hoff, !andb_false_l.
Qed.

(** C9. Whatever boolean [showTripCountFilter] is given, and also when it is
    left out, the cleared filter values are not active. *)
Theorem cleared_filters_inactive :
  hasAnyActiveFilters getClearedFilterValues = Normal (VBool false) ∧
  ∀ showTripCountFilter : bool,
    hasAnyActiveFilters
      (<["showTripCountFilter" := VBool showTripCountFilter]> getClearedFilterValues)
    = Normal (VBool false).
Proof.
  split; [by vm_compute|]. intros []; by vm_compute.
Qed.

(** ** Results on strings *)

(** On strings no validation function throws, and [isValidDate],
    [validateDateRange] and [hasAnyActiveFilters] return booleans. *)
Lemma validation_returns_normally (Date_parse : string → number)
    (selectedDate startDate endDate : string) :
  (∃ b, isValidDate Date_parse (VStr selectedDate) = Normal (VBool b)) ∧
  (∃ b, validateDateRange Date_parse (VStr startDate) (VStr endDate) = Normal (VBool b)) ∧
  (∃ v, hasSpecificDateFilter (VStr selectedDate) = Normal v
        ∧ ToBoolean v = isSet (VStr selectedDate)) ∧
  (∃ v, hasDateRangeFilter (VStr startDate) (VStr endDate) = Normal v
        ∧ ToBoolean v = isSet (VStr startDate) || isSet (VStr endDate)) ∧
  (∃ v, hasBothDateFilters (VStr selectedDate) (VStr startDate) (VStr endDate) = Normal v
        ∧ ToBoolean v
          = isSet (VStr selectedDate) && (isSet (VStr startDate) || isSet (VStr endDate))).
Proof.
  assert (Hrange : ∃ v, hasDateRangeFilter (VStr startDate) (VStr endDate) = Normal v
        ∧ ToBoolean v = isSet (VStr startDate) || isSet (VStr endDate)).
  { unfold hasDateRangeFilter.
    destruct (filled_string_truthy startDate) as (w1 & -> & <-).
    destruct (filled_string_truthy endDate) as (w2 & E2 & <-).
    unfold mbind, completion_bind, js_or.
    destruct (ToBoolean w1) eqn:T1; [by exists w1|]. by exists w2. }
  repeat split.
  - rewrite isValidDate_string. by eexists.
  - rewrite validateDateRange_strings. by eexists.
  - apply filled_string_truthy.
  - done.
  - unfold hasBothDateFilters, hasSpecificDateFilter.
    destruct (filled_string_truthy selectedDate) as (w & -> & <-).
    destruct Hrange as (v & Hv & <-).
    unfold mbind, completion_bind, js_and.
    destruct (ToBoolean w) eqn:T; [by exists v|]. by exists w.
Qed.

(** C8. The presence tests hand back the empty string, which is not a
    boolean, when the field is the empty string: [hasSpecificDateFilter('')],
    [hasDateRangeFilter('', '')] and [hasBothDateFilters('', s, e)] all
    evaluate to [''], where the JSDoc of each promises a boolean. *)
Theorem presence_tests_return_empty_string :
  hasSpecificDateFilter (VStr "") = Normal (VStr "") ∧
  hasDateRangeFilter (VStr "") (VStr "") = Normal (VStr "") ∧
  (∀ startDate endDate : val,
     hasBothDateFilters (VStr "") startDate endDate = Normal (VStr "")) ∧
  (∀ b, VStr "" ≠ VBool b).
Proof. repeat split; done. Qed.

(** ** The date category *)

Lemma effectiveRange_both (rangeStart rangeEnd : val) :
  isSet rangeStart = true → isSet rangeEnd = true →
  effectiveRange rangeStart rangeEnd = (rangeStart, rangeEnd).
Proof. intros Ha Hb. unfold effectiveRange. by rewrite Ha, Hb. Qed.

Lemma effectiveRange_not_both (rangeStart rangeEnd : val) :
  isSet rangeStart && isSet rangeEnd = false →
  effectiveRange rangeStart rangeEnd = (VUndefined, VUndefined).
Proof. intros H. unfold effectiveRange. by rewrite H. Qed.

Lemma rangeMatch_not_both (Date_parse : string → number)
    (rowDate rangeStart rangeEnd : val) :
  isSet rangeStart && isSet rangeEnd = false →
  rangeMatch Date_parse rowDate rangeStart rangeEnd = false.
Proof. intros H. unfold rangeMatch. by rewrite H. Qed.

(** The verdict of the date category in closed form: no specific date and
    no complete range lets every row through; otherwise a row passes on a
    specific match or on a range match. *)
Lemma applyDateFiltering_closed (Date_parse : string → number)
    (rowDate specificDate rangeStart rangeEnd : val) :
  applyDateFiltering Date_parse rowDate specificDate rangeStart rangeEnd =
  negb (isSet specificDate) && negb (isSet rangeStart && isSet rangeEnd)
  || specificMatch Date_parse rowDate specificDate
  || rangeMatch Date_parse rowDate rangeStart rangeEnd.
Proof.
  unfold applyDateFiltering.
  destruct (isSet rangeStart && isSet rangeEnd) eqn:Hboth.
  - apply andb_true_iff in Hboth as [Ha Hb].
    rewrite effectiveRange_both by done. rewrite Ha, Hb. simpl.
    by rewrite andb_false_r.
  - rewrite effectiveRange_not_both by done. simpl.
    rewrite (rangeMatch_not_both _ _ rangeStart rangeEnd) by done.
    unfold rangeMatch. simpl. rewrite !orb_false_r.
    unfold specificMatch. by destruct (isSet specificDate).
Qed.

(** A row passes a specific date that is its own date. *)
Lemma applyDateFiltering_self (Date_parse : string → number) (d unset1 unset2 : val) (t : Z) :
  isSet d = true → dateOf Date_parse d = Num t →
  isSet unset1 = false → isSet unset2 = false →
  applyDateFiltering Date_parse d d unset1 unset2 = true.
Proof.
  intros Hd Ht H1 H2. rewrite applyDateFiltering_closed.
  unfold specificMatch. rewrite Hd, Ht. simpl. by rewrite Z.eqb_refl.
Qed.




(** C5. With exactly one bound of the range set, the verdict of
    [applyDateFiltering] is the one it gives with that bound unset, for every
    row date and every specific date; with no specific date set it is [true]
    for every row date. *)
Theorem lone_bound_does_not_constrain (Date_parse : string → number)
    (rowDate specificDate rangeStart rangeEnd : val) :
  xorb (isSet rangeStart) (isSet rangeEnd) = true →
  (∀ unset, isSet unset = false →
   applyDateFiltering Date_parse rowDate specificDate rangeStart rangeEnd
   = applyDateFiltering Date_parse rowDate specificDate
       (if isSet rangeStart then unset else rangeStart)
       (if isSet rangeEnd then unset else rangeEnd)) ∧
  (isSet specificDate = false →
   applyDateFiltering Date_parse rowDate specificDate rangeStart rangeEnd = true).
Proof.
  intros Hone. split.
  - intros u Hu. rewrite !applyDateFiltering_closed.
    destruct (isSet rangeStart) eqn:Ha, (isSet rangeEnd) eqn:Hb; try done.
    + rewrite !rangeMatch_not_both by (by rewrite ?Hu, ?Ha, ?Hb).
      by rewrite Hu, Hb.
    + rewrite !rangeMatch_not_both by (by rewrite ?Hu, ?Ha, ?Hb).
      by rewrite Hu, Ha.
  - intros Hs. rewrite applyDateFiltering_closed, Hs.
    by destruct (isSet rangeStart), (isSet rangeEnd).
Qed.

(** ** The zone and trip-count categories *)

Lemma applyZoneFiltering_unset (rowZone selectedZone : val) :
  isSet selectedZone = false → applyZoneFiltering rowZone selectedZone = true.
Proof. intros H. unfold applyZoneFiltering. by rewrite H. Qed.

Lemma applyTripCountFiltering_unset (row : Row) (selector : val) :
  isSet selector = false → applyTripCountFiltering row selector = true.
Proof.
  destruct selector as [| |b|s]; try done.
  simpl. intros H%negb_false_iff. by rewrite H.
Qed.

Lemma applyTripCountFiltering_all (row : Row) :
  applyTripCountFiltering row (VStr "all") = true.
Proof. done. Qed.

Lemma applyTripCountFiltering_chosen (row : Row) (s : string) :
  isSet (VStr s) = true → s ≠ "all" →
  applyTripCountFiltering row (VStr s)
  = bool_decide (selectorBucket s = Some (tripsBucket row)).
Proof.
  simpl. intros Hb%negb_true_iff Hall%String.eqb_neq. by rewrite Hb, Hall.
Qed.

Lemma selectorBucket_range (s : string) (b : TripBucket) :
  selectorBucket s = Some b →
  (s = "0" ∧ b = Bucket0) ∨ (s = "1" ∧ b = Bucket1) ∨ (s = "2" ∧ b = Bucket2).
Proof.
  unfold selectorBucket.
  destruct (String.eqb_spec s "0") as [->|_]; [intros [= <-]; tauto|].
  destruct (String.eqb_spec s "1") as [->|_]; [intros [= <-]; tauto|].
  destruct (String.eqb_spec s "2") as [->|_]; [intros [= <-]; tauto|].
  done.
Qed.

(** C7. [applyTripCountFiltering] returns [true] when the selector is
    ['all'] or unset; otherwise it returns [true] if and only if the selector
    is ['0'], ['1'] or ['2'] and the row's trip bucket is the one it names;
    a row with three trips or more is excluded under every such selector and
    included under ['all'].  The options offered are ['all'], ['0'], ['1']
    and ['2'] and no other. *)
Theorem applyTripCountFiltering_spec (row : Row) (selector : val) :
  (isSet selector = false ∨ selector = VStr "all" →
   applyTripCountFiltering row selector = true) ∧
  (isSet selector = true → selector ≠ VStr "all" →
   (applyTripCountFiltering row selector = true ↔
    (selector = VStr "0" ∧ tripsBucket row = Bucket0)
    ∨ (selector = VStr "1" ∧ tripsBucket row = Bucket1)
    ∨ (selector = VStr "2" ∧ tripsBucket row = Bucket2))) ∧
  (isSet selector = true → selector ≠ VStr "all" →
   tripsBucket row = Bucket3plus → applyTripCountFiltering row selector = false) ∧
  map value TRIP_COUNT_OPTIONS = ["all"; "0"; "1"; "2"].
Proof.
  assert (Hiff : isSet selector = true → selector ≠ VStr "all" →
    (applyTripCountFiltering row selector = true ↔
      (selector = VStr "0" ∧ tripsBucket row = Bucket0)
      ∨ (selector = VStr "1" ∧ tripsBucket row = Bucket1)
      ∨ (selector = VStr "2" ∧ tripsBucket row = Bucket2))).
  { destruct selector as [| |b|s]; try done. intros Hset Hall.
    rewrite applyTripCountFiltering_chosen by congruence.
    rewrite bool_decide_eq_true. split.
    - intros H. destruct (selectorBucket_range _ _ H) as [[-> <-]|[[-> <-]|[-> <-]]]; tauto.
    - intros [[[= ->] ->]|[[[= ->] ->]|[[= ->] ->]]]; done. }
  split; [|split; [|split]]; [| done | | done].
  - intros [H | ->]; [by apply applyTripCountFiltering_unset | done].
  - intros Hset Hall H3. apply not_true_is_false. rewrite (Hiff Hset Hall), H3.
    intros [[_ ?]|[[_ ?]|[_ ?]]]; done.
Qed.

(** ** The gate *)

(** [shouldIncludeRow] yields the boolean conjunction of the three category
    verdicts. *)
Lemma shouldIncludeRow_conj (Date_parse : string → number)
    (row : Row) (filters : object) (sheetName : val) :
  shouldIncludeRow Date_parse row filters sheetName =
  Normal (VBool
    (applyDateFiltering Date_parse (Date row) (get filters "selectedDate")
       (get filters "startDate") (get filters "endDate")
     && applyZoneFiltering (Zone row) (get filters "selectedZone")
     && applyTripCountFiltering row (get filters "tripCountFilter"))).
Proof.
  unfold shouldIncludeRow, js_and, mbind, completion_bind. simpl.
  destruct (applyDateFiltering _ _ _ _ _); simpl; [|done].
  destruct (applyZoneFiltering _ _); done.
Qed.


(** ** Inactive filters *)

Lemma ToBoolean_false_unset (v : val) : ToBoolean v = false → isSet v = false.
Proof.
  destruct v as [| |b|s]; try done.
  simpl. intros H%negb_false_iff. apply eqb_empty in H as ->. done.
Qed.

(** When [hasAnyActiveFilters] returns [false], no date or zone field is set
    and the selector is not chosen under an enabled category. *)
Lemma hasAnyActiveFilters_false_inv (filterValues : object) :
  hasAnyActiveFilters filterValues = Normal (VBool false) →
  isSet (get filterValues "selectedDate") = false
  ∧ isSet (get filterValues "startDate") = false
  ∧ isSet (get filterValues "endDate") = false
  ∧ isSet (get filterValues "selectedZone") = false
  ∧ tripCountEnabled filterValues
    && selectorChosen (get filterValues "tripCountFilter") = false.
Proof.
  unfold hasAnyActiveFilters, tripCountEnabled, selectorChosen.
  generalize (param_default (get filterValues "showTripCountFilter") (VBool false)).
  intros show.
  unfold mbind, completion_bind, js_or.
  destruct (filled (get filterValues "selectedDate")) as [w1|] eqn:E1; [|done].
  destruct (ToBoolean w1) eqn:T1; [done|].
  destruct (filled (get filterValues "startDate")) as [w2|] eqn:E2; [|done].
  destruct (ToBoolean w2) eqn:T2; [by rewrite T2|].
  destruct (filled (get filterValues "endDate")) as [w3|] eqn:E3; [|done].
  destruct (ToBoolean w3) eqn:T3; [done|].
  destruct (filled (get filterValues "selectedZone")) as [w4|] eqn:E4; [|done].
  destruct (ToBoolean w4) eqn:T4; [done|].
  intros Htrip.
  repeat (split; [by eapply filled_falsy|]).
  revert Htrip. unfold js_and.
  destruct (ToBoolean show) eqn:Hshow; [|done].
  destruct (ToBoolean (get filterValues "tripCountFilter")) eqn:Htc; [|done].
  simpl. by destruct (strict_eq _ _).
Qed.

(** When [hasAnyActiveFilters] returns [false] and the selector is unset or
    ['all'] whenever the trip-count category is disabled, [shouldIncludeRow],
    with the three predicates as they are modelled above, returns [true] for
    every row. *)
Theorem inactive_filters_include_every_row (Date_parse : string → number)
    (row : Row) (filters : object) (sheetName : val) :
  hasAnyActiveFilters filters = Normal (VBool false) →
  (tripCountEnabled filters = false →
   isSet (get filters "tripCountFilter") = false
   ∨ get filters "tripCountFilter" = VStr "all") →
  shouldIncludeRow Date_parse row filters sheetName = Normal (VBool true).
Proof.
  intros (Hd & Hs & He & Hz & Ht)%hasAnyActiveFilters_false_inv Hoff.
  rewrite shouldIncludeRow_conj, applyDateFiltering_closed, Hd, Hs.
  rewrite applyZoneFiltering_unset by done. simpl.
  destruct (tripCountEnabled filters) eqn:Hon.
  - simpl in Ht. unfold selectorChosen in Ht.
    apply andb_false_iff in Ht as [Ht | Ht].
    + by rewrite applyTripCountFiltering_unset by by apply ToBoolean_false_unset.
    + apply negb_false_iff in Ht. unfold strict_eq in Ht.
      apply bool_decide_eq_true in Ht as ->. done.
  - destruct (Hoff eq_refl) as [Ht' | ->]; [|done].
    by rewrite applyTripCountFiltering_unset.
Qed.

(** * Further properties of the validation functions *)

Lemma isNaN_false (x : number) : isNaN x = false ↔ x ≠ NaN.
Proof. destruct x; split; done. Qed.

(** X1. On a string [isValidDate] returns a boolean, which is [true] exactly
    when the string is blank or the host parses it: a string of white space
    counts as a valid date. *)
Theorem isValidDate_spec (Date_parse : string → number) (dateString : string) :
  ∃ b, isValidDate Date_parse (VStr dateString) = Normal (VBool b)
       ∧ (b = true ↔ blank dateString = true ∨ Date_parse dateString ≠ NaN).
Proof.
  rewrite isValidDate_string. eexists. split; [done|].
  by rewrite orb_true_iff, negb_true_iff, isNaN_false.
Qed.

Lemma hasDateRangeFilter_textual (startDate endDate : val) :
  textual startDate = true → textual endDate = true →
  ∃ v, hasDateRangeFilter startDate endDate = Normal v
       ∧ ToBoolean v = isSet startDate || isSet endDate.
Proof.
  intros Hs He. unfold hasDateRangeFilter.
  destruct (filled_textual _ Hs) as (w1 & -> & <-).
  destruct (filled_textual _ He) as (w2 & E2 & <-).
  unfold mbind, completion_bind, js_or.
  destruct (ToBoolean w1) eqn:T1; [by exists w1|]. by exists w2.
Qed.

Lemma hasBothDateFilters_textual (selectedDate startDate endDate : val) :
  textual selectedDate = true → textual startDate = true → textual endDate = true →
  ∃ v, hasBothDateFilters selectedDate startDate endDate = Normal v
       ∧ ToBoolean v = isSet selectedDate && (isSet startDate || isSet endDate).
Proof.
  intros Hd Hs He. unfold hasBothDateFilters, hasSpecificDateFilter.
  destruct (filled_textual _ Hd) as (w & -> & <-).
  destruct (hasDateRangeFilter_textual _ _ Hs He) as (v & Hv & <-).
  unfold mbind, completion_bind, js_and.
  destruct (ToBoolean w) eqn:T; [by exists v|]. by exists w.
Qed.

(** X2. On fields that hold text the three presence tests return normally;
    what [hasSpecificDateFilter] returns is truthy exactly when the date is
    non-blank, what [hasDateRangeFilter] returns exactly when the start or
    the end is non-blank, and what [hasBothDateFilters] returns exactly when
    the specific date is non-blank and so is at least one bound. *)
Theorem presence_tests_on_text (selectedDate startDate endDate : val) :
  textual selectedDate = true → textual startDate = true → textual endDate = true →
  (∃ v, hasSpecificDateFilter selectedDate = Normal v
        ∧ ToBoolean v = isSet selectedDate) ∧
  (∃ v, hasDateRangeFilter startDate endDate = Normal v
        ∧ ToBoolean v = isSet startDate || isSet endDate) ∧
  (∃ v, hasBothDateFilters selectedDate startDate endDate = Normal v
        ∧ ToBoolean v = isSet selectedDate && (isSet startDate || isSet endDate)).
Proof.
  intros Hd Hs He. split; [|split].
  - by apply filled_textual.
  - by apply hasDateRangeFilter_textual.
  - by apply hasBothDateFilters_textual.
Qed.

(** X3. [isValidDate] throws exactly on the boolean [true]: the call of
    [trim] stands before the [try] block, which therefore does not catch its
    [TypeError]; on [undefined], [null] and [false] the answer is [true]. *)
Theorem isValidDate_throws (Date_parse : string → number) (dateString : val) :
  ((∃ e, isValidDate Date_parse dateString = Throw e) ↔ dateString = VBool true) ∧
  (ToBoolean dateString = false → isValidDate Date_parse dateString = Normal (VBool true)).
Proof.
  split.
  - destruct dateString as [| |[]|s]; try (split; [by intros [e [=]] | done]).
    + split; [done|]. intros _. by exists TypeError.
    + rewrite isValidDate_string. split; [by intros [e [=]] | done].
  - destruct dateString as [| |[]|s]; try done.
    simpl. intros H%negb_false_iff. apply eqb_empty in H as ->. done.
Qed.

(** X4. A non-blank specific date settles [hasAnyActiveFilters]: the answer
    is [true] whatever the other properties hold, read or not. *)
Theorem hasAnyActiveFilters_specific_date (filterValues : object) (selectedDate : string) :
  get filterValues "selectedDate" = VStr selectedDate →
  blank selectedDate = false →
  hasAnyActiveFilters filterValues = Normal (VBool true).
Proof.
  intros Hget Hblank. unfold hasAnyActiveFilters. rewrite Hget, filled_string.
  destruct (String.eqb_spec selectedDate "") as [->|_]; [done|].
  by rewrite Hblank.
Qed.

(** X5. When both dates parse and [validateDateRange] rejects the range,
    it accepts the range with start and end exchanged. *)
Theorem validateDateRange_swap (Date_parse : string → number) (startDate endDate : string) :
  Date_parse startDate ≠ NaN → Date_parse endDate ≠ NaN →
  validateDateRange Date_parse (VStr startDate) (VStr endDate) = Normal (VBool false) →
  validateDateRange Date_parse (VStr endDate) (VStr startDate) = Normal (VBool true).
Proof.
  rewrite !validateDateRange_strings. intros Hs He [= H].
  apply orb_false_iff in H as [_ Hle].
  destruct (Date_parse startDate) as [|a], (Date_parse endDate) as [|b]; try done.
  simpl in *. do 2 f_equal. rewrite !orb_true_iff. right. lia.
Qed.

(** X6. A range of one day, start and end the same string, is valid exactly
    when the string is empty or parses. *)
Theorem validateDateRange_same_day (Date_parse : string → number) (date : string) :
  ∃ b, validateDateRange Date_parse (VStr date) (VStr date) = Normal (VBool b)
       ∧ (b = true ↔ date = "" ∨ Date_parse date ≠ NaN).
Proof.
  rewrite validateDateRange_strings. eexists. split; [done|].
  rewrite !orb_true_iff, eqb_empty. destruct (Date_parse date) as [|t]; simpl.
  - split.
    + intros [[?|?]|?]; [by left | by left | done].
    + intros [?|?]; [by left; left | done].
  - split; [by right | intros _; right; lia].
Qed.

(** X7. [getDateRangeErrorMessage] blames the start date exactly when both
    strings are non-empty and the start is non-blank and does not parse,
    whatever the end is; it blames the end date exactly when both are
    non-empty, the start passes [isValidDate], and the end is non-blank and
    does not parse. *)
Theorem getDateRangeErrorMessage_blame (Date_parse : string → number)
    (startDate endDate : string) :
  (getDateRangeErrorMessage Date_parse (VStr startDate) (VStr endDate)
   = Normal (VStr "Start date is invalid")
   ↔ startDate ≠ "" ∧ endDate ≠ "" ∧ blank startDate = false
     ∧ Date_parse startDate = NaN) ∧
  (getDateRangeErrorMessage Date_parse (VStr startDate) (VStr endDate)
   = Normal (VStr "End date is invalid")
   ↔ startDate ≠ "" ∧ endDate ≠ ""
     ∧ (blank startDate = true ∨ Date_parse startDate ≠ NaN)
     ∧ blank endDate = false ∧ Date_parse endDate = NaN).
Proof.
  rewrite getDateRangeErrorMessage_strings.
  destruct (String.eqb_spec startDate "") as [->|Hs]; simpl.
  { split; (split; [done | intros (? & _); done]). }
  destruct (String.eqb_spec endDate "") as [->|He]; simpl.
  { split; (split; [done | intros (_ & ? & _); done]). }
  destruct (blank startDate); simpl.
  - split; [split; [|intros (_ & _ & ? & _); done]|].
    + destruct (negb _); [done|]. by destruct (negb _).
    + destruct (blank endDate); simpl.
      * split; [by destruct (negb _) | intros (_ & _ & _ & ? & _); done].
      * destruct (Date_parse endDate) as [|t]; simpl.
        -- split; [intros _; repeat split; by try left | done].
        -- split; [by destruct (negb _) | intros (_ & _ & _ & _ & ?); done].
  - destruct (Date_parse startDate) as [|a]; simpl.
    + split; [done|]. split; [done | intros (_ & _ & [?|?] & _); done].
    + split.
      * split; [|intros (_ & _ & _ & ?); done].
        destruct (negb _); [done|]. by destruct (negb _).
      * destruct (blank endDate); simpl.
        -- split; [by destruct (negb _) | intros (_ & _ & _ & ? & _); done].
        -- destruct (Date_parse endDate) as [|t]; simpl.
           ++ split; [intros _; repeat split; by try right | done].
           ++ split; [by destruct (negb _) | intros (_ & _ & _ & _ & ?); done].
Qed.

(** X8. When both strings are non-empty and parse, the message is [null] if
    the start is on or before the end, and
    [ERROR_MESSAGES.INVALID_DATE_RANGE] otherwise. *)
Theorem getDateRangeErrorMessage_parsed (Date_parse : string → number)
    (startDate endDate : string) (t1 t2 : Z) :
  startDate ≠ "" → endDate ≠ "" →
  Date_parse startDate = Num t1 → Date_parse endDate = Num t2 →
  getDateRangeErrorMessage Date_parse (VStr startDate) (VStr endDate)
  = Normal (if bool_decide (t1 ≤ t2) then VNull
            else VStr (INVALID_DATE_RANGE ERROR_MESSAGES)).
Proof.
  intros Hs%String.eqb_neq He%String.eqb_neq H1 H2.
  rewrite getDateRangeErrorMessage_strings, Hs, He, H1, H2. simpl.
  rewrite !orb_true_r. simpl.
  destruct (Z.leb_spec t1 t2).
  - by rewrite bool_decide_eq_true_2.
  - rewrite bool_decide_eq_false_2; [done | lia].
Qed.

(** X9. A start date of white space only, which the host does not parse,
    passes [isValidDate] and yet fails [validateDateRange] against any
    non-empty end; the message then never blames the start date. *)
Theorem blank_start_date (Date_parse : string → number) (startDate endDate : string) :
  startDate ≠ "" → blank startDate = true → Date_parse startDate = NaN →
  endDate ≠ "" →
  isValidDate Date_parse (VStr startDate) = Normal (VBool true) ∧
  validateDateRange Date_parse (VStr startDate) (VStr endDate) = Normal (VBool false) ∧
  ∃ message,
    getDateRangeErrorMessage Date_parse (VStr startDate) (VStr endDate)
    = Normal (VStr message)
    ∧ (message = "End date is invalid" ∨ message = INVALID_DATE_RANGE ERROR_MESSAGES).
Proof.
  intros Hs%String.eqb_neq Hb Hnan He%String.eqb_neq.
  rewrite isValidDate_string, validateDateRange_strings,
    getDateRangeErrorMessage_strings, Hs, He, Hb, Hnan. simpl.
  split; [done|]. split; [done|].
  destruct (negb _); eexists; split; try done; [by left | by right].
Qed.

(** * Properties of the display and of the components *)

Lemma formatDateForDisplay_string (Date_parse : string → number)
    (toLocaleDateString : number → string) (dateString : string) :
  formatDateForDisplay Date_parse toLocaleDateString (VStr dateString) =
  Normal (VStr
    (if String.eqb dateString ""
        || negb (blank dateString || negb (isNaN (Date_parse dateString)))
     then "..."
     else toLocaleDateString (Date_parse dateString))).
Proof.
  unfold formatDateForDisplay. rewrite isValidDate_string.
  unfold js_or, js_not, mbind, completion_bind. simpl.
  destruct (String.eqb dateString ""); simpl; [done|].
  by destruct (blank dateString || negb (isNaN (Date_parse dateString))).
Qed.

Lemma formatDateForDisplay_textual (Date_parse : string → number)
    (toLocaleDateString : number → string) (v : val) :
  textual v = true →
  ∃ text, formatDateForDisplay Date_parse toLocaleDateString v = Normal (VStr text).
Proof.
  destruct v as [| |b|s]; intros Ht; try done.
  - by exists "...".
  - by exists "...".
  - rewrite formatDateForDisplay_string. by eexists.
Qed.

(** X10. On a string [formatDateForDisplay] returns ['...'] when the string
    is empty or is non-blank and does not parse, and the host's rendering of
    the parsed date otherwise; a non-empty string of white space is handed
    to the host as it is. *)
Theorem formatDateForDisplay_spec (Date_parse : string → number)
    (toLocaleDateString : number → string) (dateString : string) :
  ∃ text,
    formatDateForDisplay Date_parse toLocaleDateString (VStr dateString)
    = Normal (VStr text) ∧
    (dateString = "" ∨ (blank dateString = false ∧ Date_parse dateString = NaN) →
     text = "...") ∧
    (dateString ≠ "" → blank dateString = true ∨ Date_parse dateString ≠ NaN →
     text = toLocaleDateString (Date_parse dateString)).
Proof.
  rewrite formatDateForDisplay_string. eexists. split; [done|]. split.
  - intros [-> | [-> ->]]; [done|]. simpl. by rewrite orb_true_r.
  - intros Hne%String.eqb_neq Hvalid. rewrite Hne. simpl.
    destruct Hvalid as [-> | Hp%isNaN_false]; [done|].
    by rewrite Hp, orb_true_r.
Qed.

(** ** Clearing *)

Lemma param_default_idemp (v d : val) :
  param_default (param_default v d) d = param_default v d.
Proof. destruct v; try done. by destruct d. Qed.

(** [hasAnyActiveFilters] on the object the components build reads the
    state's five fields and the flag. *)
Lemma hasAnyActiveFilters_filterValuesOf (state : object) (showTripCountFilter : val) :
  textual (get state "selectedDate") = true →
  textual (get state "startDate") = true →
  textual (get state "endDate") = true →
  textual (get state "selectedZone") = true →
  hasAnyActiveFilters (filterValuesOf state showTripCountFilter) =
  Normal (VBool (isSet (get state "selectedDate")
                 || isSet (get state "startDate")
                 || isSet (get state "endDate")
                 || isSet (get state "selectedZone")
                 || ToBoolean (param_default showTripCountFilter (VBool false))
                    && selectorChosen (get state "tripCountFilter"))).
Proof.
  intros H1 H2 H3 H4.
  by rewrite (hasAnyActiveFilters_textual (filterValuesOf state showTripCountFilter)).
Qed.

(** The four text fields after [handleClearAllFilters]. *)
Lemma handleClearAllFilters_text_fields (showTripCountFilter : val)
    (setter : option (val → object → object)) (state : object) :
  ToBoolean (param_default showTripCountFilter (VBool false)) = false
  ∨ setter = Some setTripCountFilter ∨ setter = None →
  let state' := handleClearAllFilters showTripCountFilter setter state in
  get state' "selectedDate" = VStr "" ∧ get state' "startDate" = VStr ""
  ∧ get state' "endDate" = VStr "" ∧ get state' "selectedZone" = VStr "".
Proof.
  intros Hgate state'. subst state'. unfold handleClearAllFilters.
  destruct (ToBoolean (param_default showTripCountFilter (VBool false)));
    [destruct Hgate as [? | [-> | ->]]; [done|..]|];
    unfold setTripCountFilter, setSelectedZone, setEndDate, setStartDate, setSelectedDate;
    repeat split;
    repeat (first [rewrite get_insert_eq | rewrite get_insert_ne by done]); done.
Qed.

(** X11. After [handleClearAllFilters] the filters are not active, provided
    the trip-count category is disabled or the setter of the selector was
    handed down: the date and zone fields are emptied and the selector, when
    it counts, is back at ['all']. *)
Theorem handleClearAllFilters_inactive (showTripCountFilter : val)
    (setter : option (val → object → object)) (state : object) :
  ToBoolean (param_default showTripCountFilter (VBool false)) = false
  ∨ setter = Some setTripCountFilter →
  Filters_hasActiveFilters
    (handleClearAllFilters showTripCountFilter setter state) showTripCountFilter
  = Normal (VBool false).
Proof.
  intros Hgate. unfold Filters_hasActiveFilters.
  destruct (handleClearAllFilters_text_fields showTripCountFilter setter state)
    as (E1 & E2 & E3 & E4); [destruct Hgate; [by left | by right; left]|].
  rewrite hasAnyActiveFilters_filterValuesOf by (by rewrite ?E1, ?E2, ?E3, ?E4).
  rewrite E1, E2, E3, E4, param_default_idemp. simpl.
  destruct (ToBoolean (param_default showTripCountFilter (VBool false))) eqn:Hshow;
    [|done].
  destruct Hgate as [? | ->]; [done|].
  unfold handleClearAllFilters. rewrite Hshow.
  unfold setTripCountFilter. by rewrite get_insert_eq.
Qed.

(** X12. [handleClearAllFilters] leaves the selector as it is when the
    category is disabled or no setter was handed down; with the category
    enabled, no setter and a selector chosen, the filters are still active
    after it. *)
Theorem handleClearAllFilters_keeps_selector (showTripCountFilter : val)
    (setter : option (val → object → object)) (state : object) :
  ToBoolean (param_default showTripCountFilter (VBool false)) = false ∨ setter = None →
  get (handleClearAllFilters showTripCountFilter setter state) "tripCountFilter"
  = get state "tripCountFilter" ∧
  (ToBoolean (param_default showTripCountFilter (VBool false)) = true →
   selectorChosen (get state "tripCountFilter") = true →
   Filters_hasActiveFilters
     (handleClearAllFilters showTripCountFilter setter state) showTripCountFilter
   = Normal (VBool true)).
Proof.
  intros Hgate.
  assert (Hkeep :
    get (handleClearAllFilters showTripCountFilter setter state) "tripCountFilter"
    = get state "tripCountFilter").
  { unfold handleClearAllFilters.
    destruct (ToBoolean (param_default showTripCountFilter (VBool false)));
      [destruct Hgate as [? | ->]; [done|]|];
      unfold setSelectedZone, setEndDate, setStartDate, setSelectedDate;
      by rewrite !get_insert_ne by done. }
  split; [done|]. intros Hshow Hchosen.
  destruct Hgate as [Hoff | ->]; [by rewrite Hoff in Hshow|].
  unfold Filters_hasActiveFilters.
  destruct (handleClearAllFilters_text_fields showTripCountFilter None state)
    as (E1 & E2 & E3 & E4); [by right; right|].
  rewrite hasAnyActiveFilters_filterValuesOf by (by rewrite ?E1, ?E2, ?E3, ?E4).
  by rewrite E1, E2, E3, E4, param_default_idemp, Hshow, Hkeep, Hchosen.
Qed.

(** X13. After [handleClearDateRange] the date range is valid, so that no
    error box is shown, and [hasDateRangeFilter] is falsy, whatever the two
    bounds held before; the other fields are as they were. *)
Theorem handleClearDateRange_valid (Date_parse : string → number) (state : object) :
  let state' := handleClearDateRange state in
  isDateRangeValid Date_parse state' = Normal (VBool true) ∧
  (∃ v, hasDateRangeFilter (get state' "startDate") (get state' "endDate") = Normal v
        ∧ ToBoolean v = false) ∧
  (∀ k, k ≠ "startDate" → k ≠ "endDate" → get state' k = get state k).
Proof.
  intros state'. subst state'.
  unfold isDateRangeValid, handleClearDateRange, setEndDate, setStartDate.
  rewrite get_insert_eq, get_insert_ne, get_insert_eq by done.
  split; [done|]. split; [by exists (VStr "")|].
  intros k H1 H2. by rewrite !get_insert_ne.
Qed.

(** X14. The handlers clear to the values of the two utility functions:
    [handleClearSpecificDate] followed by [handleClearDateRange] leaves in
    the date fields what [getClearedDateFilters()] holds, and
    [handleClearAllFilters], with the category enabled and its setter at
    hand, leaves in all five fields what [getClearedFilterValues()] holds. *)
Theorem handlers_clear_to_defaults (state : object) :
  (∀ k, k ∈ ["selectedDate"; "startDate"; "endDate"] →
   get (handleClearDateRange (handleClearSpecificDate state)) k
   = get getClearedDateFilters k) ∧
  (∀ k, k ∈ ["selectedDate"; "startDate"; "endDate"; "selectedZone"; "tripCountFilter"] →
   get (handleClearAllFilters (VBool true) (Some setTripCountFilter) state) k
   = get getClearedFilterValues k).
Proof.
  split; intros k Hk; repeat (apply elem_of_cons in Hk as [-> | Hk]);
    try (by apply elem_of_nil in Hk);
    unfold handleClearDateRange, handleClearSpecificDate, handleClearAllFilters,
      setTripCountFilter, setSelectedZone, setEndDate, setStartDate, setSelectedDate;
    simpl;
    repeat (first [rewrite get_insert_eq | rewrite get_insert_ne by done]); done.
Qed.

(** ** The tags *)

Section Tags.

Variable Date_parse : string → number.
Variable toLocaleDateString : number → string.

Lemma renderSpecificDateTag_textual (selectedDate : val) :
  textual selectedDate = true →
  ∃ text, renderSpecificDateTag Date_parse toLocaleDateString selectedDate
          = Normal (if isSet selectedDate then Some (SpecificDateTag text) else None).
Proof.
  intros Ht. unfold renderSpecificDateTag, hasSpecificDateFilter.
  destruct (filled_textual _ Ht) as (w & -> & <-).
  destruct (formatDateForDisplay_textual Date_parse toLocaleDateString _ Ht) as (d & ->).
  unfold mbind, completion_bind, js_not. simpl.
  destruct (ToBoolean w); by eexists.
Qed.

Lemma renderDateRangeTag_textual (startDate endDate : val) :
  textual startDate = true → textual endDate = true →
  ∃ text, renderDateRangeTag Date_parse toLocaleDateString startDate endDate
          = Normal (if isSet startDate || isSet endDate
                    then Some (DateRangeTag text) else None).
Proof.
  intros Hs He. unfold renderDateRangeTag.
  destruct (hasDateRangeFilter_textual _ _ Hs He) as (w & -> & <-).
  destruct (formatDateForDisplay_textual Date_parse toLocaleDateString _ Hs) as (a & ->).
  destruct (formatDateForDisplay_textual Date_parse toLocaleDateString _ He) as (b & ->).
  unfold mbind, completion_bind, js_not. simpl.
  destruct (ToBoolean w); by eexists.
Qed.

Lemma renderZoneTag_any (selectedZone : val) :
  renderZoneTag selectedZone
  = Normal (if ToBoolean selectedZone
            then Some (ZoneTag (String.append "Zone: " (text_of selectedZone)))
            else None).
Proof. unfold renderZoneTag, js_not. simpl. by destruct (ToBoolean selectedZone). Qed.

Lemma renderOrLogicTag_textual (selectedDate startDate endDate : val) :
  textual selectedDate = true → textual startDate = true → textual endDate = true →
  renderOrLogicTag selectedDate startDate endDate
  = Normal (if isSet selectedDate && (isSet startDate || isSet endDate)
            then Some OrLogicTag else None).
Proof.
  intros Hd Hs He. unfold renderOrLogicTag.
  destruct (hasBothDateFilters_textual _ _ _ Hd Hs He) as (w & -> & <-).
  unfold mbind, completion_bind, js_not. simpl. by destruct (ToBoolean w).
Qed.

(** The tags a panel shows, each present or not. *)
Definition tagsShown (specific range zone both : bool) (t1 t2 t3 : string) : list tag :=
  (if specific then [SpecificDateTag t1] else [])
  ++ (if range then [DateRangeTag t2] else [])
  ++ (if zone then [ZoneTag t3] else [])
  ++ (if both then [OrLogicTag] else []).

(** [ActiveFiltersDisplay] on props that hold text, in closed form. *)
Lemma ActiveFiltersDisplay_textual (props : object) :
  textual (get props "selectedDate") = true →
  textual (get props "startDate") = true →
  textual (get props "endDate") = true →
  textual (get props "selectedZone") = true →
  let specific := isSet (get props "selectedDate") in
  let range := isSet (get props "startDate") || isSet (get props "endDate") in
  ∃ t1 t2 t3,
    ActiveFiltersDisplay Date_parse toLocaleDateString props
    = Normal
        (if specific || range || isSet (get props "selectedZone")
            || tripCountEnabled props && selectorChosen (get props "tripCountFilter")
         then Some (tagsShown specific range (ToBoolean (get props "selectedZone"))
                      (specific && range) t1 t2 t3)
         else None).
Proof.
  intros H1 H2 H3 H4 specific range. subst specific range.
  unfold ActiveFiltersDisplay.
  rewrite hasAnyActiveFilters_filterValuesOf by done.
  rewrite param_default_idemp. fold (tripCountEnabled props).
  destruct (renderSpecificDateTag_textual _ H1) as (t1 & ->).
  destruct (renderDateRangeTag_textual _ _ H2 H3) as (t2 & ->).
  rewrite renderZoneTag_any, renderOrLogicTag_textual by done.
  exists t1, t2, (String.append "Zone: " (text_of (get props "selectedZone"))).
  rewrite <- !orb_assoc.
  unfold mbind, completion_bind, js_not, tagsShown. simpl.
  destruct (_ || _); simpl; [|done].
  by destruct (isSet (get props "selectedDate")),
    (isSet (get props "startDate") || isSet (get props "endDate")),
    (ToBoolean (get props "selectedZone")).
Qed.

Local Set Warnings "-clear-no-such-hyp".

Lemma OrLogicTag_shown (specific range zone both : bool) (t1 t2 t3 : string) :
  OrLogicTag ∈ tagsShown specific range zone both t1 t2 t3 ↔ both = true.
Proof. unfold tagsShown. destruct specific, range, zone, both; set_solver. Qed.

Lemma SpecificDateTag_shown (specific range zone both : bool) (t1 t2 t3 : string) :
  (∃ text, SpecificDateTag text ∈ tagsShown specific range zone both t1 t2 t3)
  ↔ specific = true.
Proof. unfold tagsShown. destruct specific, range, zone, both; set_solver. Qed.

Lemma DateRangeTag_shown (specific range zone both : bool) (t1 t2 t3 : string) :
  (∃ text, DateRangeTag text ∈ tagsShown specific range zone both t1 t2 t3)
  ↔ range = true.
Proof. unfold tagsShown. destruct specific, range, zone, both; set_solver. Qed.

Lemma tagsShown_nil (specific range zone both : bool) (t1 t2 t3 : string) :
  tagsShown specific range zone both t1 t2 t3 = []
  ↔ specific = false ∧ range = false ∧ zone = false ∧ both = false.
Proof.
  unfold tagsShown.
  destruct specific, range, zone, both; simpl; split;
    first [done | by intros (? & ? & ? & ?)].
Qed.

(** X15. On props that hold text, a panel that [ActiveFiltersDisplay]
    renders shows the OR-logic tag exactly when it shows both the
    specific-date tag and the date-range tag. *)
Theorem or_tag_with_both_date_tags (props : object) (tags : list tag) :
  textual (get props "selectedDate") = true →
  textual (get props "startDate") = true →
  textual (get props "endDate") = true →
  textual (get props "selectedZone") = true →
  ActiveFiltersDisplay Date_parse toLocaleDateString props = Normal (Some tags) →
  (OrLogicTag ∈ tags ↔
   (∃ text, SpecificDateTag text ∈ tags) ∧ (∃ text, DateRangeTag text ∈ tags)).
Proof.
  intros H1 H2 H3 H4.
  destruct (ActiveFiltersDisplay_textual props H1 H2 H3 H4) as (t1 & t2 & t3 & ->).
  destruct (_ || _); [|done]. intros [= <-].
  rewrite OrLogicTag_shown, SpecificDateTag_shown, DateRangeTag_shown.
  apply andb_true_iff.
Qed.

(** X16. On props that hold text, [ActiveFiltersDisplay] renders the panel
    without a single tag exactly when no date is set, the zone is empty and
    the trip-count selector is chosen under an enabled category: the
    trip-count filter has no tag of its own. *)
Theorem panel_without_tags (props : object) :
  textual (get props "selectedDate") = true →
  textual (get props "startDate") = true →
  textual (get props "endDate") = true →
  textual (get props "selectedZone") = true →
  (ActiveFiltersDisplay Date_parse toLocaleDateString props = Normal (Some [])
   ↔ isSet (get props "selectedDate") = false
     ∧ isSet (get props "startDate") = false
     ∧ isSet (get props "endDate") = false
     ∧ ToBoolean (get props "selectedZone") = false
     ∧ tripCountEnabled props = true
     ∧ selectorChosen (get props "tripCountFilter") = true).
Proof.
  intros H1 H2 H3 H4.
  destruct (ActiveFiltersDisplay_textual props H1 H2 H3 H4) as (t1 & t2 & t3 & ->).
  split.
  - destruct (_ || _) eqn:Hactive; [|done]. intros [= Hnil].
    apply tagsShown_nil in Hnil as (Hd & Hr & Hz & _).
    apply orb_false_iff in Hr as [Hs He].
    rewrite Hd, Hs, He, (ToBoolean_false_unset _ Hz) in Hactive. simpl in Hactive.
    apply andb_true_iff in Hactive as [? ?]. done.
  - intros (Hd & Hs & He & Hz & Hon & Hchosen).
    rewrite Hd, Hs, He, Hz, Hon, Hchosen, (ToBoolean_false_unset _ Hz). done.
Qed.

(** X17. A range with its start alone, a non-blank string that parses, is
    shown as the rendering of the start, a dash and ['...'] for the missing
    end. *)
Theorem lone_start_tag (startDate : string) (t : Z) :
  blank startDate = false → Date_parse startDate = Num t →
  renderDateRangeTag Date_parse toLocaleDateString (VStr startDate) (VStr "")
  = Normal (Some (DateRangeTag
      (String.append "Range: "
         (String.append (toLocaleDateString (Num t)) " - ...")))).
Proof.
  intros Hblank Hparse. unfold renderDateRangeTag, hasDateRangeFilter.
  rewrite !formatDateForDisplay_string, !filled_string, Hparse, Hblank.
  destruct (String.eqb_spec startDate "") as [->|_]; [done|]. done.
Qed.

(** X18. With no date and no zone set, [hasAnyActiveFilters] is [true]
    exactly when [TripCountFilter] renders its select with a value other than
    ['all']: an unset selector is shown as ['all'] and does not count. *)
Theorem select_shows_activity (props : object) :
  isSet (get props "selectedDate") = false → textual (get props "selectedDate") = true →
  isSet (get props "startDate") = false → textual (get props "startDate") = true →
  isSet (get props "endDate") = false → textual (get props "endDate") = true →
  isSet (get props "selectedZone") = false → textual (get props "selectedZone") = true →
  (hasAnyActiveFilters props = Normal (VBool true)
   ↔ ∃ sel, TripCountFilter props = Normal (Some sel)
            ∧ select_value sel ≠ VStr "all").
Proof.
  intros Hd Td Hs Ts He Te Hz Tz.
  rewrite hasAnyActiveFilters_textual, Hd, Hs, He, Hz by done. simpl.
  unfold TripCountFilter, tripCountEnabled, selectorChosen, js_not, js_or, strict_eq.
  generalize (param_default (get props "showTripCountFilter") (VBool false)).
  generalize (get props "tripCountFilter"). intros tc show.
  destruct (ToBoolean show); simpl.
  - destruct (ToBoolean tc) eqn:Htc; simpl.
    + split.
      * intros [= H%negb_true_iff%bool_decide_eq_false]. by eexists.
      * intros (sel & [= <-] & Hne). simpl in Hne.
        by rewrite bool_decide_eq_false_2.
    + split; [done|]. by intros (sel & [= <-] & Hne).
  - split; [done|]. by intros (sel & [=] & _).
Qed.

(** X19. When [hasAnyActiveFilters] returns [false], whatever the fields
    hold, none of the presence tests behind the date tags throws and each
    returns a falsy value. *)
Theorem inactive_filters_show_no_date_tag (filterValues : object) :
  hasAnyActiveFilters filterValues = Normal (VBool false) →
  let selectedDate := get filterValues "selectedDate" in
  let startDate := get filterValues "startDate" in
  let endDate := get filterValues "endDate" in
  (∃ v, hasSpecificDateFilter selectedDate = Normal v ∧ ToBoolean v = false) ∧
  (∃ v, hasDateRangeFilter startDate endDate = Normal v ∧ ToBoolean v = false) ∧
  (∃ v, hasBothDateFilters selectedDate startDate endDate = Normal v
        ∧ ToBoolean v = false).
Proof.
  intros Hinactive selectedDate startDate endDate.
  subst selectedDate startDate endDate. revert Hinactive.
  unfold hasAnyActiveFilters, hasBothDateFilters, hasDateRangeFilter,
    hasSpecificDateFilter, mbind, completion_bind, js_or, js_and.
  destruct (filled (get filterValues "selectedDate")) as [w1|] eqn:E1; [|done].
  destruct (ToBoolean w1) eqn:T1; [done|].
  destruct (filled (get filterValues "startDate")) as [w2|] eqn:E2; [|done].
  destruct (ToBoolean w2) eqn:T2; [by rewrite T2|].
  destruct (filled (get filterValues "endDate")) as [w3|] eqn:E3; [|done].
  destruct (ToBoolean w3) eqn:T3; [done|].
  intros _. repeat split; by eexists.
Qed.

(** X20. On a state that holds text, [ActiveFiltersDisplay], given the
    props [Filters] hands it, renders its panel exactly when
    [hasActiveFilters] of [Filters] is [true]: the panel and the button that
    clears all filters are shown together. *)
Theorem panel_with_clear_button (state : object) (showTripCountFilter : val) :
  textual (get state "selectedDate") = true →
  textual (get state "startDate") = true →
  textual (get state "endDate") = true →
  textual (get state "selectedZone") = true →
  ((∃ tags,
      ActiveFiltersDisplay Date_parse toLocaleDateString
        (filterValuesOf state (param_default showTripCountFilter (VBool false)))
      = Normal (Some tags))
   ↔ Filters_hasActiveFilters state showTripCountFilter = Normal (VBool true)).
Proof.
  intros H1 H2 H3 H4. unfold Filters_hasActiveFilters.
  rewrite hasAnyActiveFilters_filterValuesOf by done.
  destruct (ActiveFiltersDisplay_textual
    (filterValuesOf state (param_default showTripCountFilter (VBool false))))
    as (t1 & t2 & t3 & ->); [done..|].
  change (tripCountEnabled (filterValuesOf state
            (param_default showTripCountFilter (VBool false))))
    with (ToBoolean (param_default (param_default showTripCountFilter (VBool false))
            (VBool false))).
  change (get (filterValuesOf state (param_default showTripCountFilter (VBool false)))
            "selectedDate") with (get state "selectedDate").
  change (get (filterValuesOf state (param_default showTripCountFilter (VBool false)))
            "startDate") with (get state "startDate").
  change (get (filterValuesOf state (param_default showTripCountFilter (VBool false)))
            "endDate") with (get state "endDate").
  change (get (filterValuesOf state (param_default showTripCountFilter (VBool false)))
            "selectedZone") with (get state "selectedZone").
  change (get (filterValuesOf state (param_default showTripCountFilter (VBool false)))
            "tripCountFilter") with (get state "tripCountFilter").
  rewrite <- !orb_assoc.
  destruct (_ || _); split; try done.
  - by eexists.
  - by intros [? [=]].
Qed.

End Tags.

(** * Evaluations *)

Example validateDateRange_examples :
  validateDateRange isoDateParse (VStr "") (VStr "2024-01-01") = Normal (VBool true) ∧
  validateDateRange isoDateParse (VStr "2024-05-01") (VStr "2024-01-01") = Normal (VBool false) ∧
  validateDateRange isoDateParse (VStr "not-a-date") (VStr "2024-01-01") = Normal (VBool false).
Proof. repeat split; by vm_compute. Qed.

(** The same day written two ways: the dates are equal, so the range is
    valid, although the start is the greater string. *)
Example validateDateRange_not_by_string :
  validateDateRange isoDateParse (VStr "2024-01-01") (VStr "2024-01") = Normal (VBool true) ∧
  String.ltb "2024-01" "2024-01-01" = true.
Proof. split; by vm_compute. Qed.

(** The OR case of the spec: a row passes on the specific date or on the
    range, and a row that matches neither is excluded. *)
Example date_or_range_examples :
  shouldIncludeRow isoDateParse (sampleRow "2024-01-01" "Z1" Bucket0) dateOrRange VUndefined
  = Normal (VBool true) ∧
  shouldIncludeRow isoDateParse (sampleRow "2024-03-15" "Z1" Bucket0) dateOrRange VUndefined
  = Normal (VBool true) ∧
  shouldIncludeRow isoDateParse (sampleRow "2024-02-01" "Z1" Bucket0) dateOrRange VUndefined
  = Normal (VBool false).
Proof. repeat split; by vm_compute. Qed.

(** The range is inclusive at both ends and closed just outside them. *)
Example range_bounds_examples :
  let range := filterState "" "2024-03-01" "2024-03-31" "" "all" true in
  map (λ d, shouldIncludeRow isoDateParse (sampleRow d "Z1" Bucket0) range VUndefined)
    ["2024-02-29"; "2024-03-01"; "2024-03-31"; "2024-04-01"]
  = map (λ b, Normal (VBool b)) [false; true; true; false].
Proof. by vm_compute. Qed.

(** The disjunction does not reach over the other categories: a row that
    matches the specific date but not the zone is excluded. *)
Example or_stays_inside_the_date_category :
  let filters := filterState "2024-01-01" "2024-03-01" "2024-03-31" "Z2" "all" true in
  let row := sampleRow "2024-01-01" "Z1" Bucket0 in
  specificMatch isoDateParse (Date row) (get filters "selectedDate") = true ∧
  applyZoneFiltering (Zone row) (get filters "selectedZone") = false ∧
  shouldIncludeRow isoDateParse row filters VUndefined = Normal (VBool false).
Proof. repeat split; by vm_compute. Qed.

(** The selector ['1'] lets through the rows of bucket 1 and no other. *)
Example selector_one_examples :
  map (λ b, applyTripCountFiltering (sampleRow "2024-01-01" "Z1" b) (VStr "1"))
    [Bucket0; Bucket1; Bucket2; Bucket3plus]
  = [false; true; false; false].
Proof. by vm_compute. Qed.

(** With the trip-count category disabled the selector ['1'] does not make
    the filters active; the gate as quoted hands it to
    [applyTripCountFiltering] all the same, which, as modelled, excludes a
    row of bucket 0.  [dateFilterLogic.js] is not among the sources, so this
    is a property of the model only. *)
Lemma inactive_filters_exclude_a_row :
  hasAnyActiveFilters staleSelector = Normal (VBool false) ∧
  shouldIncludeRow isoDateParse (sampleRow "2024-02-01" "Z1" Bucket0) staleSelector VUndefined
  = Normal (VBool false).
Proof. split; by vm_compute. Qed.

(** * The statements at the sample data *)


Lemma inactive_filters_include_every_row_witness :
  hasAnyActiveFilters (filterState "" "  " "" "" "all" false) = Normal (VBool false) ∧
  shouldIncludeRow isoDateParse (sampleRow "2024-02-01" "Z1" Bucket3plus)
    (filterState "" "  " "" "" "all" false) VUndefined
  = Normal (VBool true).
Proof.
  assert (Hinactive :
    hasAnyActiveFilters (filterState "" "  " "" "" "all" false) = Normal (VBool false))
    by (vm_compute; reflexivity).
  split; [exact Hinactive|].
  apply (inactive_filters_include_every_row isoDateParse _ _ VUndefined Hinactive).
  intros _. right. vm_compute. reflexivity.
Defined.

Lemma validateDateRange_spec_witness :
  validateDateRange isoDateParse (VStr "") (VStr "2024-01-01") = Normal (VBool true) ∧
  validateDateRange isoDateParse (VStr "not-a-date") (VStr "2024-01-01") = Normal (VBool false) ∧
  ∃ b, validateDateRange isoDateParse (VStr "2024-05-01") (VStr "2024-01-01")
       = Normal (VBool b)
       ∧ (b = true ↔ 1714521600000 ≤ 1704067200000).
Proof.
  split; [|split].
  - apply (proj1 (validateDateRange_spec isoDateParse "" "2024-01-01")). by left.
  - apply (proj1 (proj2 (validateDateRange_spec isoDateParse "not-a-date" "2024-01-01")));
      [done | done | by left].
  - apply (proj2 (proj2 (validateDateRange_spec isoDateParse "2024-05-01" "2024-01-01")));
      [done | done | vm_compute; reflexivity | vm_compute; reflexivity].
Defined.



Lemma lone_bound_does_not_constrain_witness :
  xorb (isSet (VStr "2024-03-01")) (isSet (VStr "")) = true ∧
  applyDateFiltering isoDateParse (VStr "2024-02-01") (VStr "2024-01-01")
    (VStr "2024-03-01") (VStr "")
  = applyDateFiltering isoDateParse (VStr "2024-02-01") (VStr "2024-01-01")
      VUndefined (VStr "") ∧
  applyDateFiltering isoDateParse (VStr "2024-02-01") (VStr "") (VStr "2024-03-01") (VStr "")
  = true.
Proof.
  assert (Hone : xorb (isSet (VStr "2024-03-01")) (isSet (VStr "")) = true) by reflexivity.
  split; [exact Hone|]. split.
  - exact (proj1 (lone_bound_does_not_constrain isoDateParse (VStr "2024-02-01")
             (VStr "2024-01-01") (VStr "2024-03-01") (VStr "") Hone) VUndefined eq_refl).
  - exact (proj2 (lone_bound_does_not_constrain isoDateParse (VStr "2024-02-01")
             (VStr "") (VStr "2024-03-01") (VStr "") Hone) eq_refl).
Defined.

Lemma hasAnyActiveFilters_spec_witness :
  ∃ b, hasAnyActiveFilters staleSelector = Normal (VBool b) ∧
    (b = true ↔
       isSet (get staleSelector "selectedDate") = true
       ∨ isSet (get staleSelector "startDate") = true
       ∨ isSet (get staleSelector "endDate") = true
       ∨ isSet (get staleSelector "selectedZone") = true
       ∨ (tripCountEnabled staleSelector = true
          ∧ ToBoolean (get staleSelector "tripCountFilter") = true
          ∧ get staleSelector "tripCountFilter" ≠ VStr "all")) ∧
    (tripCountEnabled staleSelector = false →
     ∀ v, hasAnyActiveFilters (<["tripCountFilter" := v]> staleSelector)
          = Normal (VBool b)).
Proof.
  apply (hasAnyActiveFilters_spec staleSelector); vm_compute; reflexivity.
Defined.

Lemma applyTripCountFiltering_spec_witness :
  applyTripCountFiltering (sampleRow "2024-01-01" "Z1" Bucket3plus) (VStr "all") = true ∧
  applyTripCountFiltering (sampleRow "2024-01-01" "Z1" Bucket3plus) (VStr "2") = false ∧
  (applyTripCountFiltering (sampleRow "2024-01-01" "Z1" Bucket1) (VStr "1") = true ↔
   (VStr "1" = VStr "0" ∧ Bucket1 = Bucket0)
   ∨ (VStr "1" = VStr "1" ∧ Bucket1 = Bucket1)
   ∨ (VStr "1" = VStr "2" ∧ Bucket1 = Bucket2)).
Proof.
  split; [|split].
  - apply (proj1 (applyTripCountFiltering_spec
             (sampleRow "2024-01-01" "Z1" Bucket3plus) (VStr "all"))). by right.
  - apply (proj1 (proj2 (proj2 (applyTripCountFiltering_spec
             (sampleRow "2024-01-01" "Z1" Bucket3plus) (VStr "2"))))); done.
  - apply (proj1 (proj2 (applyTripCountFiltering_spec
             (sampleRow "2024-01-01" "Z1" Bucket1) (VStr "1")))); done.
Defined.

Lemma getDateRangeErrorMessage_spec_witness :
  validateDateRange isoDateParse (VStr "2024-05-01") (VStr "2024-01-01")
  = Normal (VBool false) ∧
  ∃ message,
    getDateRangeErrorMessage isoDateParse (VStr "2024-05-01") (VStr "2024-01-01")
    = Normal (VStr message) ∧ message ≠ "".
Proof.
  assert (Hinvalid : validateDateRange isoDateParse (VStr "2024-05-01") (VStr "2024-01-01")
                     = Normal (VBool false)) by (vm_compute; reflexivity).
  split; [exact Hinvalid|].
  exact (proj2 (getDateRangeErrorMessage_spec isoDateParse "2024-05-01" "2024-01-01") Hinvalid).
Defined.

(** * The further statements at the sample data *)

Lemma presence_tests_on_text_witness :
  (∃ v, hasSpecificDateFilter (VStr "2024-01-01") = Normal v
        ∧ ToBoolean v = isSet (VStr "2024-01-01")) ∧
  (∃ v, hasDateRangeFilter (VStr "  ") VNull = Normal v
        ∧ ToBoolean v = isSet (VStr "  ") || isSet VNull) ∧
  (∃ v, hasBothDateFilters (VStr "2024-01-01") (VStr "  ") VNull = Normal v
        ∧ ToBoolean v = isSet (VStr "2024-01-01") && (isSet (VStr "  ") || isSet VNull)).
Proof.
  apply (presence_tests_on_text (VStr "2024-01-01") (VStr "  ") VNull); reflexivity.
Defined.

Lemma hasAnyActiveFilters_specific_date_witness :
  get brokenZone "selectedZone" = VBool true ∧
  hasAnyActiveFilters brokenZone = Normal (VBool true).
Proof.
  split; [vm_compute; reflexivity|].
  apply (hasAnyActiveFilters_specific_date brokenZone "2024-01-01");
    vm_compute; reflexivity.
Defined.

Lemma validateDateRange_swap_witness :
  validateDateRange isoDateParse (VStr "2024-05-01") (VStr "2024-01-01")
  = Normal (VBool false) ∧
  validateDateRange isoDateParse (VStr "2024-01-01") (VStr "2024-05-01")
  = Normal (VBool true).
Proof.
  assert (Hinvalid : validateDateRange isoDateParse (VStr "2024-05-01") (VStr "2024-01-01")
                     = Normal (VBool false)) by (vm_compute; reflexivity).
  split; [exact Hinvalid|].
  apply (validateDateRange_swap isoDateParse "2024-05-01" "2024-01-01");
    [vm_compute; discriminate | vm_compute; discriminate | exact Hinvalid].
Defined.

Lemma getDateRangeErrorMessage_parsed_witness :
  getDateRangeErrorMessage isoDateParse (VStr "2024-05-01") (VStr "2024-01-01")
  = Normal (if bool_decide (1714521600000 ≤ 1704067200000) then VNull
            else VStr (INVALID_DATE_RANGE ERROR_MESSAGES)).
Proof.
  apply (getDateRangeErrorMessage_parsed isoDateParse "2024-05-01" "2024-01-01");
    [done | done | vm_compute; reflexivity | vm_compute; reflexivity].
Defined.

Lemma blank_start_date_witness :
  isValidDate isoDateParse (VStr "  ") = Normal (VBool true) ∧
  validateDateRange isoDateParse (VStr "  ") (VStr "2024-01-01") = Normal (VBool false) ∧
  ∃ message,
    getDateRangeErrorMessage isoDateParse (VStr "  ") (VStr "2024-01-01")
    = Normal (VStr message)
    ∧ (message = "End date is invalid" ∨ message = INVALID_DATE_RANGE ERROR_MESSAGES).
Proof.
  apply (blank_start_date isoDateParse "  " "2024-01-01");
    [done | reflexivity | vm_compute; reflexivity | done].
Defined.

Lemma handleClearAllFilters_inactive_witness :
  Filters_hasActiveFilters
    (handleClearAllFilters (VBool true) (Some setTripCountFilter) dateOrRange) (VBool true)
  = Normal (VBool false) ∧
  Filters_hasActiveFilters (handleClearAllFilters VUndefined None staleSelector) VUndefined
  = Normal (VBool false).
Proof.
  split.
  - apply (handleClearAllFilters_inactive (VBool true) (Some setTripCountFilter)
             dateOrRange). by right.
  - apply (handleClearAllFilters_inactive VUndefined None staleSelector). by left.
Defined.

Lemma handleClearAllFilters_keeps_selector_witness :
  get (handleClearAllFilters (VBool true) None onlyTripCount) "tripCountFilter"
  = get onlyTripCount "tripCountFilter" ∧
  Filters_hasActiveFilters (handleClearAllFilters (VBool true) None onlyTripCount)
    (VBool true)
  = Normal (VBool true).
Proof.
  destruct (handleClearAllFilters_keeps_selector (VBool true) None onlyTripCount)
    as [Hkeep Hactive]; [by right|].
  split; [exact Hkeep|]. apply Hactive; vm_compute; reflexivity.
Defined.

Lemma or_tag_with_both_date_tags_witness :
  OrLogicTag
  ∈ [SpecificDateTag "Specific: day 19723";
     DateRangeTag "Range: day 19783 - day 19813"; OrLogicTag]
  ↔ (∃ text, SpecificDateTag text
             ∈ [SpecificDateTag "Specific: day 19723";
                DateRangeTag "Range: day 19783 - day 19813"; OrLogicTag])
    ∧ (∃ text, DateRangeTag text
               ∈ [SpecificDateTag "Specific: day 19723";
                  DateRangeTag "Range: day 19783 - day 19813"; OrLogicTag]).
Proof.
  apply (or_tag_with_both_date_tags isoDateParse dayNumberString dateOrRange);
    vm_compute; reflexivity.
Defined.

Lemma panel_without_tags_witness :
  ActiveFiltersDisplay isoDateParse dayNumberString onlyTripCount = Normal (Some []).
Proof.
  apply (panel_without_tags isoDateParse dayNumberString onlyTripCount);
    try (vm_compute; reflexivity).
  repeat split; vm_compute; reflexivity.
Defined.

Lemma lone_start_tag_witness :
  renderDateRangeTag isoDateParse dayNumberString (VStr "2024-03-01") (VStr "")
  = Normal (Some (DateRangeTag
      (String.append "Range: "
         (String.append (dayNumberString (Num 1709251200000)) " - ...")))).
Proof.
  apply (lone_start_tag isoDateParse dayNumberString "2024-03-01");
    [reflexivity | vm_compute; reflexivity].
Defined.

Lemma select_shows_activity_witness :
  hasAnyActiveFilters onlyTripCount = Normal (VBool true)
  ↔ ∃ sel, TripCountFilter onlyTripCount = Normal (Some sel)
           ∧ select_value sel ≠ VStr "all".
Proof.
  apply (select_shows_activity onlyTripCount); vm_compute; reflexivity.
Defined.

Lemma inactive_filters_show_no_date_tag_witness :
  (∃ v, hasSpecificDateFilter (get staleSelector "selectedDate") = Normal v
        ∧ ToBoolean v = false) ∧
  (∃ v, hasDateRangeFilter (get staleSelector "startDate") (get staleSelector "endDate")
        = Normal v ∧ ToBoolean v = false) ∧
  (∃ v, hasBothDateFilters (get staleSelector "selectedDate")
          (get staleSelector "startDate") (get staleSelector "endDate") = Normal v
        ∧ ToBoolean v = false).
Proof.
  apply (inactive_filters_show_no_date_tag staleSelector). vm_compute. reflexivity.
Defined.

Lemma panel_with_clear_button_witness :
  (∃ tags,
     ActiveFiltersDisplay isoDateParse dayNumberString
       (filterValuesOf onlyTripCount (param_default (VBool true) (VBool false)))
     = Normal (Some tags))
  ↔ Filters_hasActiveFilters onlyTripCount (VBool true) = Normal (VBool true).
Proof.
  apply (panel_with_clear_button isoDateParse dayNumberString onlyTripCount (VBool true));
    vm_compute; reflexivity.
Defined.
